(** * Billboard Hot 100 top-ten scraper: model and verified properties

    Shallow embedding of [utils/get_data.py] ([scrape_data], [save_to_csv])
    and of [load_data] from [billboard_analysis.py].

    Conventions of the model.
    - Python [str] values are lists of characters ([text]); a character is a
      code point below 256, so that [\d] is exactly [0-9] and the white space
      of [str.strip] is the set listed in [is_space].
    - A pandas frame is the list of its rows; a column operation is a [map]
      over the rows, a boolean mask selection is a [filter], the assignment
      of a column aligns on the index.
    - The frame [pd.read_html] returns is taken with its cells as text or
      [NaN] (object columns), columns identified by position; the header of
      the page is assumed not to use the names [Ref] and [Year] that the
      code adds.
    - What the program does to the outside (printing, fetching, sleeping,
      writing) is a trace of events next to its result or exception.
    - Library calls whose result is not determined by the repository
      ([requests.get], [pd.to_datetime], [datetime.now], the rendering of a
      column of timestamps by [to_csv], the floats recognized by the type
      inference of [pd.read_csv]) are variables of a section. The writer
      and the tokenizer of CSV follow [csv.writer] with a line feed as line
      terminator and the C engine of [pd.read_csv] with its defaults. *)

From Stdlib Require Import Ascii String List ZArith NArith Bool Lia Arith.
From Stdlib Require Import DecimalN DecimalPos.
Import ListNotations.

Set Implicit Arguments.

(* ================================================================== *)
(** ** Text *)

Definition text := list ascii.

(** A Python string literal. *)
Definition py (s : string) : text := list_ascii_of_string s.

Fixpoint text_eqb (a b : text) : bool :=
  match a, b with
  | [], [] => true
  | x :: a', y :: b' => Ascii.eqb x y && text_eqb a' b'
  | _, _ => false
  end.

Definition code (c : ascii) : nat := nat_of_ascii c.

(** [\d] *)
Definition is_digit (c : ascii) : bool :=
  (48 <=? code c)%nat && (code c <=? 57)%nat.

(** The characters [str.strip()] removes and [int()] skips. *)
Definition is_space (c : ascii) : bool :=
  let n := code c in
  ((9 <=? n) && (n <=? 13) || (28 <=? n) && (n <=? 32)
   || (n =? 133) || (n =? 160))%nat.

Definition digit_val (c : ascii) : Z := Z.of_nat (code c) - 48.

Definition char_is (a c : ascii) : bool := Ascii.eqb a c.

Definition dquote : ascii := ascii_of_nat 34.
Definition newline : ascii := ascii_of_nat 10.
Definition carriage_return : ascii := ascii_of_nat 13.

(** [s.startswith(p)], returning what follows the prefix. *)
Fixpoint strip_prefix (p s : text) : option text :=
  match p, s with
  | [], _ => Some s
  | a :: p', c :: s' => if char_is a c then strip_prefix p' s' else None
  | _ :: _, [] => None
  end.

(** [a.join(parts)] *)
Fixpoint join (sep : text) (parts : list text) : text :=
  match parts with
  | [] => []
  | [p] => p
  | p :: rest => p ++ sep ++ join sep rest
  end.

(** [s.strip()] *)
Fixpoint lstrip (s : text) : text :=
  match s with
  | c :: t => if is_space c then lstrip t else s
  | [] => []
  end.

Definition rstrip (s : text) : text := rev (lstrip (rev s)).

Definition strip (s : text) : text := rstrip (lstrip s).

(** [s.split(sep)] for a separator of one character: the pieces between
    the occurrences of [sep], one more than there are occurrences. *)
Fixpoint split (sep : ascii) (s : text) : list text :=
  match s with
  | [] => [[]]
  | c :: t =>
      if char_is sep c then [] :: split sep t
      else match split sep t with
           | p :: ps => (c :: p) :: ps
           | [] => [[c]]
           end
  end.

(** [s[-n:]] for n > 0 *)
Definition last_chars (n : nat) (s : text) : text :=
  skipn (length s - n) s.

(* ------------------------------------------------------------------ *)
(** *** Integers as text *)

(** Value of a run of decimal digits read left to right from [acc]. *)
Fixpoint digits_value (acc : Z) (s : text) : Z :=
  match s with
  | [] => acc
  | c :: t => digits_value (10 * acc + digit_val c) t
  end.

(** Body of an integer literal accepted by [int()]: decimal digits, with
    single underscores allowed between two digits. *)
Fixpoint int_body (acc : Z) (after_digit : bool) (s : text) : option Z :=
  match s with
  | [] => if after_digit then Some acc else None
  | c :: t =>
      if is_digit c then int_body (10 * acc + digit_val c) true t
      else if char_is "_"%char c then
             (if after_digit then int_body acc false t else None)
      else None
  end.

(** Python's [int(s)] on a string, base 10: surrounding white space is
    skipped, one sign is allowed; [None] stands for [ValueError]. *)
Definition py_int (s : text) : option Z :=
  match strip s with
  | c :: t =>
      if char_is "-"%char c then option_map Z.opp (int_body 0 false t)
      else if char_is "+"%char c then int_body 0 false t
      else int_body 0 false (c :: t)
  | [] => None
  end.

Definition digit_char (d : nat) : ascii := ascii_of_nat (48 + d).

Fixpoint text_of_uint (u : Decimal.uint) : text :=
  match u with
  | Decimal.Nil => []
  | Decimal.D0 r => digit_char 0 :: text_of_uint r
  | Decimal.D1 r => digit_char 1 :: text_of_uint r
  | Decimal.D2 r => digit_char 2 :: text_of_uint r
  | Decimal.D3 r => digit_char 3 :: text_of_uint r
  | Decimal.D4 r => digit_char 4 :: text_of_uint r
  | Decimal.D5 r => digit_char 5 :: text_of_uint r
  | Decimal.D6 r => digit_char 6 :: text_of_uint r
  | Decimal.D7 r => digit_char 7 :: text_of_uint r
  | Decimal.D8 r => digit_char 8 :: text_of_uint r
  | Decimal.D9 r => digit_char 9 :: text_of_uint r
  end.

(** Python's [str(n)] on an integer. *)
Definition str_of_int (z : Z) : text :=
  match z with
  | Z0 => py "0"
  | Zpos p => text_of_uint (Pos.to_uint p)
  | Zneg p => "-"%char :: text_of_uint (Pos.to_uint p)
  end.

(* ------------------------------------------------------------------ *)
(** *** The regular expressions of the scraper *)

(** Leftmost match of a pattern anchored by [m] ([re.search]): the suffix
    of [s] that starts at the match. *)
Fixpoint search (m : text -> bool) (s : text) : option text :=
  if m s then Some s
  else match s with
       | [] => None
       | _ :: t => search m t
       end.

Definition four_digits (s : text) : bool :=
  match s with
  | a :: b :: c :: d :: _ => is_digit a && is_digit b && is_digit c && is_digit d
  | _ => false
  end.

(** [Singles from \d{4}] matches at the start of [s]. *)
Definition sentinel_at (s : text) : bool :=
  match strip_prefix (py "Singles from ") s with
  | Some rest => four_digits rest
  | None => false
  end.

(** [re.search(r"Singles from \d{4}", s) is not None] *)
Definition contains_sentinel (s : text) : bool :=
  match search sentinel_at s with Some _ => true | None => false end.

(** [re.search(r"\d{4}", s).group()] *)
Definition search_four_digits (s : text) : option text :=
  option_map (firstn 4) (search four_digits s).

(** The maximal run of digits at the start of [s], and what follows. *)
Fixpoint span_digits (s : text) : text * text :=
  match s with
  | c :: t => if is_digit c
              then let (d, r) := span_digits t in (c :: d, r)
              else ([], s)
  | [] => ([], [])
  end.

(** [re.search(r"(\d+)", s).group(1)]: the first maximal run of digits. *)
Fixpoint first_digit_run (s : text) : option text :=
  match s with
  | [] => None
  | c :: t => if is_digit c then Some (fst (span_digits s))
              else first_digit_run t
  end.

(** [re.sub(r"\(.*\)", "", line)] on a text without line break: [.*] is
    greedy, so the match runs from the first opening parenthesis to the
    last closing one, provided that one comes later. *)
Fixpoint until_char (a : ascii) (s : text) : option (text * text) :=
  match s with
  | [] => None
  | c :: t => if char_is a c then Some ([], t)
              else match until_char a t with
                   | Some (pre, post) => Some (c :: pre, post)
                   | None => None
                   end
  end.

(** What follows the last occurrence of [a] in [s]. *)
Fixpoint after_last (a : ascii) (s : text) : option text :=
  match s with
  | [] => None
  | c :: t => match after_last a t with
              | Some post => Some post
              | None => if char_is a c then Some t else None
              end
  end.

Definition remove_parens_line (line : text) : text :=
  match until_char "("%char line with
  | Some (pre, rest) =>
      match after_last ")"%char rest with
      | Some post => pre ++ post
      | None => line
      end
  | None => line
  end.

(** [re.sub(r"\(.*\)", "", s)]: [.] does not match a line break, so the
    substitution works line by line. *)
Definition remove_parens (s : text) : text :=
  join [newline] (map remove_parens_line (split newline s)).

(** Length of a match of [\[\d+\]] at the start of [s], if there is one. *)
Definition citation_at (s : text) : option nat :=
  match s with
  | c :: t =>
      if char_is "["%char c then
        match span_digits t with
        | (d :: ds, r :: _) =>
            if char_is "]"%char r then Some (length (d :: ds) + 2) else None
        | _ => None
        end
      else None
  | [] => None
  end.

(** [re.sub(r"\[\d+\]", "", s)]: matches are found left to right and do
    not overlap; [skip] counts the characters of the current match that
    are still to be dropped. *)
Fixpoint remove_citations_from (skip : nat) (s : text) : text :=
  match s with
  | [] => []
  | c :: t =>
      match skip with
      | S k => remove_citations_from k t
      | O => match citation_at s with
             | Some n => remove_citations_from (n - 1) t
             | None => c :: remove_citations_from 0 t
             end
      end
  end.

Definition remove_citations (s : text) : text := remove_citations_from 0 s.

(* ================================================================== *)
(** ** Frames *)

(** A cell of an object column: text, the float [NaN] of a missing value,
    or Python's [None]. *)
Inductive cell : Type :=
| Str (s : text)
| NaN
| PyNone.

(** [str(x)], as applied cell by cell by [astype(str)]. *)
Definition astype_str (c : cell) : text :=
  match c with
  | Str s => s
  | NaN => py "nan"
  | PyNone => py "None"
  end.

(** A method of the [.str] accessor: missing values come out as [NaN]. *)
Definition str_map (f : text -> text) (c : cell) : cell :=
  match c with
  | Str s => Str (f s)
  | _ => NaN
  end.

(** The [Year] column holds integers or [pd.NA] ([None] here). *)
Definition year_str (y : option Z) : text :=
  match y with
  | Some z => str_of_int z
  | None => py "<NA>"
  end.

(** The frame [pd.read_html(str(table), header=0)[0]] returns: [ncols]
    columns, and the rows below the header as lists of cells. *)
Record RawTable : Type := {
  ncols : nat;
  rows : list (list cell)
}.

(** What fetching and parsing a page can give. *)
Inductive response : Type :=
| HttpFailure                (* requests.get or raise_for_status raises *)
| NoWikitable                (* soup.find returns None *)
| Unreadable                 (* pd.read_html raises *)
| Page (t : RawTable).

Inductive error : Type :=
| TypeError
| HTTPError
| AttributeError
| ValueError
| OverflowError
| FileNotFoundError
| EmptyDataError
| ParserError
| KeyError.

Inductive result (A : Type) : Type :=
| Ok (a : A)
| Err (e : error).
Arguments Err {A} e.

(** A page's row once [df.columns = column_names] has named its eight
    columns. *)
Record Row : Type := {
  r_entry_date : cell;
  r_single_name : cell;
  r_artists : cell;
  r_peak : cell;
  r_peak_date : cell;
  r_weeks : cell;
  r_ref : cell;
  r_year : option Z
}.

(** A timestamp ([datetime64[ns]]) is its count of nanoseconds since the
    epoch; [None] is [NaT]. *)
Definition Timestamp := Z.

Record NormalizedEntry : Type := {
  Top_Ten_Entry_Date : option Timestamp;
  Single_Name : cell;
  Artists : cell;
  Peak : Z;
  Peak_Date : option Timestamp;
  Weeks_in_Top_Ten : Z;
  Ref : cell;
  Year : option Z
}.

(** A frame as [scrape_data] returns it: [pd.DataFrame()], which has no
    column at all, or a frame of the eight named columns. *)
Inductive DataFrame : Type :=
| NoColumns
| Dataset (l : list NormalizedEntry).

Definition column_names : list text :=
  [py "Top Ten Entry Date"; py "Single Name"; py "Artist(s)"; py "Peak";
   py "Peak Date"; py "Weeks in Top Ten"; py "Ref"; py "Year"].

Definition columns (df : DataFrame) : list text :=
  match df with
  | NoColumns => []
  | Dataset _ => column_names
  end.

Definition entries (df : DataFrame) : list NormalizedEntry :=
  match df with
  | NoColumns => []
  | Dataset l => l
  end.

(** [pd.DataFrame()] *)
Definition empty_frame : DataFrame := NoColumns.

(** [df.empty]: some axis has length 0. *)
Definition df_empty (df : DataFrame) : bool :=
  match df with
  | NoColumns => true
  | Dataset [] => true
  | Dataset (_ :: _) => false
  end.

(** [pd.concat(frames, ignore_index=True)] on frames that all carry the
    eight named columns. *)
Definition pd_concat (frames : list (list NormalizedEntry)) : DataFrame :=
  Dataset (concat frames).

(* ------------------------------------------------------------------ *)
(** *** Effects: a trace of what the program does, and exceptions *)

Inductive event : Type :=
| Print (msg : text)
| HttpGet (url : text)
| Sleep
| MakeDirs (path : text)
| WriteFile (path : text) (content : text).

Definition M (A : Type) : Type := (list event * result A)%type.

Definition ret {A} (a : A) : M A := ([], Ok a).

Definition raise {A} (e : error) : M A := ([], Err e).

Definition emit (ev : event) : M unit := ([ev], Ok tt).

Definition bind {A B} (m : M A) (f : A -> M B) : M B :=
  match m with
  | (t, Ok a) => let (t', r) := f a in (t ++ t', r)
  | (t, Err e) => (t, Err e)
  end.

Definition lift {A} (r : result A) : M A := ([], r).

Declare Scope prog_scope.
Delimit Scope prog_scope with prog.
Notation "x <- m ;; k" := (bind m (fun x => k))
  (at level 61, m at next level, right associativity) : prog_scope.
Notation "m ;; k" := (bind m (fun _ => k))
  (at level 61, right associativity) : prog_scope.

(** Exceptions alone, for the column computations of a page. *)
Definition rbind {A B} (r : result A) (f : A -> result B) : result B :=
  match r with
  | Ok a => f a
  | Err e => Err e
  end.

Fixpoint map_result {A B} (f : A -> result B) (l : list A) : result (list B) :=
  match l with
  | [] => Ok []
  | a :: t => rbind (f a) (fun b => rbind (map_result f t) (fun bs => Ok (b :: bs)))
  end.

(* ================================================================== *)
(** ** The scraper: [scrape_data] *)

Definition int64_max : Z := 9223372036854775807.

(** [\(.*\)] removed, then [\[\d+\]], then [strip()]: the cleaning of both
    date columns. *)
Definition clean_date (c : cell) : cell :=
  str_map strip (str_map remove_citations (str_map remove_parens c)).

(** [.str.split(q).str[1]], with [q] the double quote character *)
Definition second_piece (c : cell) : cell :=
  match c with
  | Str s => match split dquote s with
             | _ :: p :: _ => Str p
             | _ => NaN
             end
  | _ => NaN
  end.

(** [.astype(str).str.extract(r'(\d+)')] then [.astype(int)] on one cell:
    a cell without digit has become [NaN], which [astype(int)] refuses;
    the column is [int64]. *)
Definition extract_int (c : cell) : result Z :=
  match first_digit_run (astype_str c) with
  | None => Err ValueError
  | Some d =>
      match py_int d with
      | Some z => if (z <=? int64_max)%Z then Ok z else Err OverflowError
      | None => Err ValueError
      end
  end.

(** The texts [row.astype(str)] gives for a row when the mask is computed:
    the page's cells (with [Ref]), then the [Year] column, still [pd.NA]. *)
Definition row_texts (cells : list cell) : list text :=
  map astype_str cells ++ [py "<NA>"].

(** [row.astype(str).str.contains(r"Singles from \d{4}").any()] *)
Definition is_sentinel (cells : list cell) : bool :=
  existsb contains_sentinel (row_texts cells).

(** [int(re.search(r"\d{4}", " ".join(row.astype(str))).group())] *)
Definition sentinel_year (cells : list cell) : result Z :=
  match search_four_digits (join (py " ") (row_texts cells)) with
  | Some d => match py_int d with
              | Some z => Ok z
              | None => Err ValueError
              end
  | None => Err AttributeError
  end.

(** [Series.ffill()] *)
Fixpoint ffill (last : option Z) (col : list (option Z)) : list (option Z) :=
  match col with
  | [] => []
  | Some y :: t => Some y :: ffill (Some y) t
  | None :: t => last :: ffill last t
  end.

(** Lines 80-82: a frame of six columns gets a [Ref] column of [None]. *)
Definition add_ref (t : RawTable) : RawTable :=
  if (ncols t =? 6)%nat
  then {| ncols := 7; rows := map (fun r => r ++ [PyNone]) (rows t) |}
  else t.

(** Lines 85-102: the [Year] column before the forward fill. *)
Definition mark_years (year : Z) (rs : list (list cell)) : result (list (option Z)) :=
  if (length (filter is_sentinel rs) =? 0)%nat
  then Ok (map (fun _ => Some year) rs)
  else map_result
         (fun r => if is_sentinel r
                   then rbind (sentinel_year r) (fun y => Ok (Some y))
                   else Ok None)
         rs.

(** Lines 105-109: forward fill, then the sentinel rows are dropped. *)
Definition resolve_years (year : Z) (rs : list (list cell))
  : result (list (list cell * option Z)) :=
  rbind (mark_years year rs) (fun marks =>
  Ok (filter (fun p => negb (is_sentinel (fst p)))
             (combine rs (ffill None marks)))).

(** Line 112: the columns are named by position; this needs eight of them
    (the page's, [Ref] included, and [Year]). *)
Definition name_columns (p : list cell * option Z) : Row :=
  let cells := fst p in
  {| r_entry_date := nth 0 cells NaN;
     r_single_name := nth 1 cells NaN;
     r_artists := nth 2 cells NaN;
     r_peak := nth 3 cells NaN;
     r_peak_date := nth 4 cells NaN;
     r_weeks := nth 5 cells NaN;
     r_ref := nth 6 cells NaN;
     r_year := snd p |}.

Definition rename (n : nat) (ps : list (list cell * option Z)) : result (list Row) :=
  if (n + 1 =? length column_names)%nat
  then Ok (map name_columns ps)
  else Err ValueError.

(** The text handed to [pd.to_datetime] for [Peak Date] (line 121) and for
    [Top Ten Entry Date] (line 130). *)
Definition peak_date_text (year : Z) (r : Row) : cell :=
  Str (astype_str (clean_date (r_peak_date r)) ++ py " " ++ str_of_int year).

Definition entry_date_text (r : Row) : cell :=
  Str (astype_str (clean_date (r_entry_date r)) ++ py " " ++ year_str (r_year r)).

Section Scraper.

(** [requests.get], [BeautifulSoup] and [pd.read_html] on a URL. *)
Variable web : text -> response.

(** [pd.to_datetime(column, errors='coerce')]: a column of timestamps or
    [NaT] for a column of cells. *)
Variable to_datetime : list cell -> list (option Timestamp).

(** The rows of the page, each column assigned by index. *)
Fixpoint assemble (i : nat) (rs : list Row)
         (entry_dates peak_dates : list (option Timestamp))
         (weeks peaks : list Z) : list NormalizedEntry :=
  match rs with
  | [] => []
  | r :: t =>
      {| Top_Ten_Entry_Date := nth i entry_dates None;
         Single_Name := second_piece (r_single_name r);
         Artists := r_artists r;
         Peak := nth i peaks 0%Z;
         Peak_Date := nth i peak_dates None;
         Weeks_in_Top_Ten := nth i weeks 0%Z;
         Ref := r_ref r;
         Year := r_year r |}
      :: assemble (S i) t entry_dates peak_dates weeks peaks
  end.

(** Lines 114-141. *)
Definition normalize (year : Z) (rs : list Row) : result (list NormalizedEntry) :=
  let peak_dates := to_datetime (map (peak_date_text year) rs) in
  let entry_dates := to_datetime (map entry_date_text rs) in
  rbind (map_result (fun r => extract_int (r_weeks r)) rs) (fun weeks =>
  rbind (map_result (fun r => extract_int (r_peak r)) rs) (fun peaks =>
  Ok (assemble 0 rs entry_dates peak_dates weeks peaks))).

(** Lines 80-141: one page's frame, from the table read and the year of
    the URL. *)
Definition scrape_table (year : Z) (t : RawTable) : result (list NormalizedEntry) :=
  let t' := add_ref t in
  rbind (resolve_years year (rows t')) (fun ps =>
  rbind (rename (ncols t') ps) (fun rs =>
  normalize year rs)).

Local Open Scope prog_scope.

(** The body of the loop over the URLs (lines 61-144). *)
Definition scrape_url (url : text) : M (list NormalizedEntry) :=
  emit (Print (py "Scraping URL: " ++ url)) ;;
  emit (HttpGet url) ;;
  match web url with
  | HttpFailure => raise HTTPError
  | NoWikitable => raise AttributeError
  | resp =>
      match py_int (last_chars 4 url) with
      | None => raise ValueError
      | Some year =>
          match resp with
          | Page t =>
              df <- lift (scrape_table year t) ;;
              emit Sleep ;;
              ret df
          | _ => raise ValueError
          end
      end
  end.

Fixpoint scrape_all (urls : list text) : M (list (list NormalizedEntry)) :=
  match urls with
  | [] => ret []
  | url :: rest =>
      df <- scrape_url url ;;
      dfs <- scrape_all rest ;;
      ret (df :: dfs)
  end.

(** [scrape_data(urls)]; [None] is the default of the parameter. *)
Definition scrape_data (urls : option (list text)) : M DataFrame :=
  match urls with
  | None => raise TypeError
  | Some us =>
      all_data <- scrape_all us ;;
      ret (match all_data with
           | [] => empty_frame
           | _ => pd_concat all_data
           end)
  end.

End Scraper.

(* ================================================================== *)
(** ** The output file: [save_to_csv] *)

(** [csv.writer] with [QUOTE_MINIMAL]: a field is quoted when it holds the
    delimiter, the quote character or a character of the line terminator
    ([os.linesep], a line feed here); quotes inside are doubled. *)
Definition needs_quoting (f : text) : bool :=
  existsb (fun c => char_is ","%char c || char_is dquote c || char_is newline c) f.

Fixpoint double_quotes (f : text) : text :=
  match f with
  | [] => []
  | c :: t => if char_is dquote c then dquote :: dquote :: double_quotes t
              else c :: double_quotes t
  end.

Definition render_field (f : text) : text :=
  if needs_quoting f then dquote :: double_quotes f ++ [dquote] else f.

Definition render_record (fields : list text) : text :=
  join [","%char] (map render_field fields) ++ [newline].

(** A missing value is written as the empty field ([na_rep='']). *)
Definition cell_field (c : cell) : text :=
  match c with
  | Str s => s
  | _ => []
  end.

Definition year_field (y : option Z) : text :=
  match y with
  | Some z => str_of_int z
  | None => []
  end.

(** [os.path.join(a, b)] on POSIX. *)
Definition path_join (a b : text) : text :=
  match b with
  | "/"%char :: _ => b
  | _ => match rev a with
         | [] => b
         | "/"%char :: _ => a ++ b
         | _ => a ++ "/"%char :: b
         end
  end.

Section Persister.

(** [datetime.now().strftime("%Y_%m")] *)
Variable now_stamp : text.

(** [os.path.dirname(os.path.dirname(os.path.abspath(__file__)))] *)
Variable repo_root : text.

(** How [to_csv] writes a [datetime64] column; [NaT] gives the empty
    field. *)
Variable format_datetimes : list (option Timestamp) -> list text.

Fixpoint csv_rows (i : nat) (es : list NormalizedEntry)
         (entry_dates peak_dates : list text) : list (list text) :=
  match es with
  | [] => []
  | e :: t =>
      [nth i entry_dates [];
       cell_field (Single_Name e);
       cell_field (Artists e);
       str_of_int (Peak e);
       nth i peak_dates [];
       str_of_int (Weeks_in_Top_Ten e);
       cell_field (Ref e);
       year_field (Year e)]
      :: csv_rows (S i) t entry_dates peak_dates
  end.

(** [df.to_csv(path, index=False)] on a frame of the eight columns. *)
Definition to_csv (es : list NormalizedEntry) : text :=
  concat (map render_record
              (column_names
               :: csv_rows 0 es
                    (format_datetimes (map Top_Ten_Entry_Date es))
                    (format_datetimes (map Peak_Date es)))).

Local Open Scope prog_scope.

(** [save_to_csv(df, filename)]; [None] is the default of [filename]. *)
Definition save_to_csv (df : DataFrame) (filename : option text) : M unit :=
  if df_empty df then emit (Print (py "No data to save."))
  else
    let filename :=
      match filename with
      | None => py "billboard_data_" ++ now_stamp ++ py ".csv"
      | Some f => f
      end in
    let data_folder := path_join repo_root (py "data") in
    emit (MakeDirs data_folder) ;;
    let file_path := path_join data_folder filename in
    emit (WriteFile file_path (to_csv (entries df))) ;;
    emit (Print (py "Data saved to " ++ file_path)).

End Persister.

(** The files after a run: what the trace wrote, over what was there. *)
Definition files := text -> option text.

Definition write_file (path content : text) (fs : files) : files :=
  fun p => if text_eqb p path then Some content else fs p.

Fixpoint run_events (trace : list event) (fs : files) : files :=
  match trace with
  | [] => fs
  | WriteFile path content :: t => run_events t (write_file path content fs)
  | _ :: t => run_events t fs
  end.

(* ================================================================== *)
(** ** The consumer: [load_data] *)

(** *** The tokenizer of [pd.read_csv] (C engine, default dialect) *)

Inductive tstate : Type :=
| StartRecord
| WhitespaceLine
| StartField
| InField
| InQuotedField
| QuoteInQuotedField
| EatCRNL
| EatCRNLNop.

(** The field and the record under construction are kept reversed. *)
Record tokenizer : Type := {
  state : tstate;
  field : text;
  record : list text;
  lines : list (list text)
}.

Definition set_state (st : tstate) (m : tokenizer) : tokenizer :=
  {| state := st; field := field m; record := record m; lines := lines m |}.

Definition push_char (c : ascii) (m : tokenizer) : tokenizer :=
  {| state := state m; field := c :: field m; record := record m; lines := lines m |}.

Definition end_field (m : tokenizer) : tokenizer :=
  {| state := state m; field := []; record := rev (field m) :: record m;
     lines := lines m |}.

Definition end_line (m : tokenizer) : tokenizer :=
  {| state := state m; field := []; record := [];
     lines := rev (record m) :: lines m |}.

Definition drop_field (m : tokenizer) : tokenizer :=
  {| state := state m; field := []; record := record m; lines := lines m |}.

Definition is_blank (c : ascii) : bool :=
  char_is " "%char c || char_is (ascii_of_nat 9) c.

Definition step_in_field (m : tokenizer) (c : ascii) : tokenizer :=
  if char_is newline c then set_state StartRecord (end_line (end_field m))
  else if char_is carriage_return c then set_state EatCRNL (end_field m)
  else if char_is ","%char c then set_state StartField (end_field m)
  else set_state InField (push_char c m).

Definition step_start_field (m : tokenizer) (c : ascii) : tokenizer :=
  if char_is newline c then set_state StartRecord (end_line (end_field m))
  else if char_is carriage_return c then set_state EatCRNL (end_field m)
  else if char_is dquote c then set_state InQuotedField m
  else if char_is ","%char c then set_state StartField (end_field m)
  else set_state InField (push_char c m).

(** Empty lines and lines of blanks are skipped ([skip_blank_lines]); the
    blanks read so far on such a line wait in [field]. *)
Definition step_start_record (m : tokenizer) (c : ascii) : tokenizer :=
  if char_is newline c then set_state StartRecord m
  else if char_is carriage_return c then set_state EatCRNLNop m
  else if is_blank c then set_state WhitespaceLine (push_char c m)
  else step_start_field m c.

Definition step (m : tokenizer) (c : ascii) : tokenizer :=
  match state m with
  | StartRecord => step_start_record m c
  | WhitespaceLine =>
      if char_is newline c then set_state StartRecord (drop_field m)
      else if char_is carriage_return c then set_state EatCRNLNop (drop_field m)
      else if is_blank c then push_char c m
      else step_in_field m c
  | StartField => step_start_field m c
  | InField => step_in_field m c
  | InQuotedField =>
      if char_is dquote c then set_state QuoteInQuotedField m
      else push_char c m
  | QuoteInQuotedField =>
      if char_is dquote c then set_state InQuotedField (push_char c m)
      else if char_is ","%char c then set_state StartField (end_field m)
      else if char_is newline c then set_state StartRecord (end_line (end_field m))
      else if char_is carriage_return c then set_state EatCRNL (end_field m)
      else set_state InField (push_char c m)
  | EatCRNL =>
      if char_is newline c then set_state StartRecord (end_line m)
      else if char_is ","%char c then set_state StartField (end_field (end_line m))
      else step_start_record (set_state StartRecord (end_line m)) c
  | EatCRNLNop =>
      if char_is newline c then set_state StartRecord m
      else step_start_record (set_state StartRecord m) c
  end.

(** At the end of the input. *)
Definition finish (m : tokenizer) : result (list (list text)) :=
  match state m with
  | StartRecord | WhitespaceLine | EatCRNLNop => Ok (rev (lines m))
  | InQuotedField => Err ParserError
  | InField | StartField | QuoteInQuotedField =>
      Ok (rev (lines (end_line (end_field m))))
  | EatCRNL => Ok (rev (lines (end_line m)))
  end.

Definition tokenize (input : text) : result (list (list text)) :=
  finish (fold_left step input
            {| state := StartRecord; field := []; record := []; lines := [] |}).

(** *** From the lines of the file to its columns *)

(** The fields [pd.read_csv] reads as missing by default. *)
Definition na_values : list text :=
  [ [] ; py "#N/A"; py "#N/A N/A"; py "#NA"; py "-1.#IND"; py "-1.#QNAN";
    py "-NaN"; py "-nan"; py "1.#IND"; py "1.#QNAN"; py "<NA>"; py "N/A";
    py "NA"; py "NULL"; py "NaN"; py "None"; py "n/a"; py "nan"; py "null" ].

Definition is_na (f : text) : bool := existsb (text_eqb f) na_values.

Definition read_field (f : text) : cell :=
  if is_na f then NaN else Str f.

(** A line shorter than expected is completed with empty fields; a line
    longer than expected is an error, except for the first line of data. *)
Definition pad (n : nat) (r : list text) : list text :=
  r ++ repeat [] (n - length r).

Fixpoint check_rows (expected : nat) (rs : list (list text))
  : result (list (list text)) :=
  match rs with
  | [] => Ok []
  | r :: t =>
      if (expected <? length r)%nat then Err ParserError
      else rbind (check_rows expected t) (fun t' => Ok (pad expected r :: t'))
  end.

(** The columns of the file, by name, each cell read through the filter of
    missing values. When the first line of data is longer than the header
    the leading fields are the index and the names go to the others. *)
Definition raw_columns (header : list text) (rs : list (list text))
  : list (text * list cell) :=
  let width := match rs with
               | r :: _ => Nat.max (length header) (length r)
               | [] => length header
               end in
  let extra := (width - length header)%nat in
  map (fun jn => (snd jn,
                  map (fun r => read_field (nth (fst jn + extra) r [])) rs))
      (combine (seq 0 (length header)) header).

Definition read_csv (content : text) : result (list (text * list cell)) :=
  rbind (tokenize content) (fun ls =>
  match ls with
  | [] => Err EmptyDataError
  | header :: rs =>
      let width := match rs with
                   | r :: _ => Nat.max (length header) (length r)
                   | [] => length header
                   end in
      rbind (check_rows width rs) (fun rs' => Ok (raw_columns header rs'))
  end).

(** *** Values of a loaded frame *)

(** A float that is not written as an integer is kept as the expression
    that denotes it. *)
Inductive float_expr : Type :=
| Literal (s : text)
| FloorDecade (f : float_expr).

Inductive value : Type :=
| VStr (s : text)
| VNaN
| VInt (z : Z)
| VFloat (f : float_expr)
| VBool (b : bool)
| VTime (t : Timestamp)
| VNaT.

Definition Column := list value.
Definition LoadedFrame := list (text * Column).

Fixpoint get_col {A} (name : text) (df : list (text * A)) : option A :=
  match df with
  | [] => None
  | (n, c) :: t => if text_eqb n name then Some c else get_col name t
  end.

(** [df[name] = col]: the column is replaced where it is, or added last. *)
Fixpoint set_col {A} (name : text) (col : A) (df : list (text * A))
  : list (text * A) :=
  match df with
  | [] => [(name, col)]
  | (n, c) :: t => if text_eqb n name then (n, col) :: t
                   else (n, c) :: set_col name col t
  end.

(** An integer literal: an optional sign, then digits. *)
Definition int_literal (s : text) : option Z :=
  match s with
  | c :: t =>
      if char_is "-"%char c
      then (if forallb is_digit t && negb (length t =? 0)%nat
            then Some (- digits_value 0 t)%Z else None)
      else if char_is "+"%char c
      then (if forallb is_digit t && negb (length t =? 0)%nat
            then Some (digits_value 0 t) else None)
      else if forallb is_digit s then Some (digits_value 0 s) else None
  | [] => None
  end.

Definition is_true_token (s : text) : bool :=
  existsb (text_eqb s) [py "True"; py "TRUE"; py "true"].

Definition is_false_token (s : text) : bool :=
  existsb (text_eqb s) [py "False"; py "FALSE"; py "false"].

Definition all_nan (col : list cell) : bool :=
  forallb (fun c => match c with Str _ => false | _ => true end) col.

(** Every cell that is present satisfies [p]. *)
Definition all_present (p : text -> bool) (col : list cell) : bool :=
  forallb (fun c => match c with Str s => p s | _ => true end) col.

Definition text_value (c : cell) : value :=
  match c with
  | Str s => VStr s
  | _ => VNaN
  end.

Definition time_value (t : option Timestamp) : value :=
  match t with
  | Some t => VTime t
  | None => VNaT
  end.

Definition nanoseconds_per_day : Z := 86400 * 1000000000.

(** [(df["Year"] // 10) * 10] on one value *)
Definition decade (v : value) : value :=
  match v with
  | VInt z => VInt (z / 10 * 10)
  | VBool _ => VInt 0
  | VFloat f => VFloat (FloorDecade f)
  | _ => VNaN
  end.

(** [(peak - entry).dt.days] on one row *)
Definition lag_days (peak entry : value) : value :=
  match peak, entry with
  | VTime p, VTime e => VInt ((p - e) / nanoseconds_per_day)
  | _, _ => VNaN
  end.

Section Consumer.

(** The type inference of [pd.read_csv] followed by
    [pd.to_datetime(column, errors="coerce")], on a column as read. *)
Variable read_datetimes : list cell -> list (option Timestamp).

(** The texts, other than integer literals, that the parser of
    [pd.read_csv] and [pd.to_numeric] read as a number. *)
Variable is_float : text -> bool.

Definition is_number (s : text) : bool :=
  match int_literal s with
  | Some _ => true
  | None => is_float s
  end.

Definition number_value (s : text) : value :=
  match int_literal s with
  | Some z => VInt z
  | None => VFloat (Literal s)
  end.

Definition is_bool_token (s : text) : bool :=
  is_true_token s || is_false_token s.

(** The type inference of [pd.read_csv] on a column: numbers when every
    field present is a number, booleans when every one is a boolean,
    text otherwise. *)
Definition infer (col : list cell) : Column :=
  if all_nan col then map (fun _ => VNaN) col
  else if all_present is_number col
  then map (fun c => match c with Str s => number_value s | _ => VNaN end) col
  else if all_present is_bool_token col
  then map (fun c => match c with Str s => VBool (is_true_token s) | _ => VNaN end) col
  else map text_value col.

(** The inference followed by [pd.to_numeric(column, errors="coerce")]. *)
Definition read_numeric (col : list cell) : Column :=
  if negb (all_present is_number col) && all_present is_bool_token col
  then infer col
  else map (fun c => match c with
                     | Str s => if is_number s then number_value s else VNaN
                     | _ => VNaN
                     end) col.

Definition column (name : text) (df : list (text * list cell))
  : result (list cell) :=
  match get_col name df with
  | Some c => Ok c
  | None => Err KeyError
  end.

(** [load_data(path)] on the files [fs]. *)
Definition load_data (fs : files) (path : text) : result LoadedFrame :=
  match fs path with
  | None => Err FileNotFoundError
  | Some content =>
      rbind (read_csv content) (fun raw =>
      let df := map (fun nc => (fst nc, infer (snd nc))) raw in
      rbind (column (py "Top Ten Entry Date") raw) (fun c =>
      let entry_dates := map time_value (read_datetimes c) in
      let df := set_col (py "Top Ten Entry Date") entry_dates df in
      rbind (column (py "Peak Date") raw) (fun c =>
      let peak_dates := map time_value (read_datetimes c) in
      let df := set_col (py "Peak Date") peak_dates df in
      rbind (column (py "Weeks in Top Ten") raw) (fun c =>
      let df := set_col (py "Weeks in Top Ten") (read_numeric c) df in
      rbind (column (py "Peak") raw) (fun c =>
      let df := set_col (py "Peak") (read_numeric c) df in
      rbind (column (py "Year") raw) (fun c =>
      let years := read_numeric c in
      let df := set_col (py "Year") years df in
      let df := set_col (py "Decade") (map decade years) df in
      let lags := map (fun pe => lag_days (fst pe) (snd pe))
                      (combine peak_dates entry_dates) in
      Ok (set_col (py "Lag to Peak") lags df)))))))
  end.

End Consumer.

(* ================================================================== *)
(** ** Instances and pages for the examples *)

Module Sample.

Local Open Scope Z_scope.

(** Days since 1970-01-01 of a date of the proleptic Gregorian calendar,
    and back. *)
Definition days_from_civil (y m d : Z) : Z :=
  let y' := if m <=? 2 then y - 1 else y in
  let era := y' / 400 in
  let yoe := y' - era * 400 in
  let mp := (m + 9) mod 12 in
  let doy := (153 * mp + 2) / 5 + d - 1 in
  let doe := yoe * 365 + yoe / 4 - yoe / 100 + doy in
  era * 146097 + doe - 719468.

Definition civil_from_days (z : Z) : Z * Z * Z :=
  let z := z + 719468 in
  let era := z / 146097 in
  let doe := z - era * 146097 in
  let yoe := (doe - doe / 1460 + doe / 36524 - doe / 146096) / 365 in
  let doy := doe - (365 * yoe + yoe / 4 - yoe / 100) in
  let mp := (5 * doy + 2) / 153 in
  let d := doy - (153 * mp + 2) / 5 + 1 in
  let m := if mp <? 10 then mp + 3 else mp - 9 in
  (if m <=? 2 then yoe + era * 400 + 1 else yoe + era * 400, m, d).

Definition month_names : list text :=
  [py "January"; py "February"; py "March"; py "April"; py "May";
   py "June"; py "July"; py "August"; py "September"; py "October";
   py "November"; py "December"].

Fixpoint month_number (i : Z) (names : list text) (s : text) : option Z :=
  match names with
  | [] => None
  | n :: t => if text_eqb n s then Some i else month_number (i + 1) t s
  end.

Definition digits (s : text) : option Z :=
  if forallb is_digit s && negb (length s =? 0)%nat
  then Some (digits_value 0 s) else None.

(** A timestamp at midnight of a date that exists and that
    [datetime64[ns]] can hold. *)
Definition midnight (y m d : Z) : option Timestamp :=
  let days := days_from_civil y m d in
  if (1678 <=? y) && (y <=? 2261) && (1 <=? d)
     && (let '(y', m', d') := civil_from_days days in
         (y' =? y) && (m' =? m) && (d' =? d))
  then Some (days * nanoseconds_per_day) else None.

(** [pd.to_datetime] on the form of the pages' dates once the year is
    appended, a month name, a day and a year; [NaT] for the rest. *)
Definition to_datetime_cell (c : cell) : option Timestamp :=
  match c with
  | Str s =>
      match split " "%char s with
      | [mo; d; y] =>
          match month_number 1 month_names mo, digits d, digits y with
          | Some m, Some d, Some y => midnight y m d
          | _, _, _ => None
          end
      | _ => None
      end
  | _ => None
  end.

Definition to_datetime (col : list cell) : list (option Timestamp) :=
  map to_datetime_cell col.

Definition two_digits (n : Z) : text :=
  if n <? 10 then digit_char 0 :: str_of_int n else str_of_int n.

(** A column of timestamps at midnight is written as dates. *)
Definition format_datetime (t : option Timestamp) : text :=
  match t with
  | Some t =>
      let '(y, m, d) := civil_from_days (t / nanoseconds_per_day) in
      str_of_int y ++ "-"%char :: two_digits m ++ "-"%char :: two_digits d
  | None => []
  end.

Definition format_datetimes (col : list (option Timestamp)) : list text :=
  map format_datetime col.

Definition read_datetime (c : cell) : option Timestamp :=
  match c with
  | Str s =>
      match split "-"%char s with
      | [y; m; d] =>
          match digits y, digits m, digits d with
          | Some y, Some m, Some d => midnight y m d
          | _, _, _ => None
          end
      | _ => None
      end
  | _ => None
  end.

Definition read_datetimes (col : list cell) : list (option Timestamp) :=
  map read_datetime col.

(** A decimal point between two runs of digits. *)
Definition is_float (s : text) : bool :=
  match split "."%char s with
  | [a; b] => forallb is_digit (a ++ b) && negb (length (a ++ b) =? 0)%nat
  | _ => false
  end.

Definition s (x : string) : cell := Str (py x).

Definition url_2024 : text :=
  py "https://en.wikipedia.org/wiki/List_of_Billboard_Hot_100_top-ten_singles_in_2024".

Definition url_1999 : text :=
  py "https://en.wikipedia.org/wiki/List_of_Billboard_Hot_100_top-ten_singles_in_1999".

Definition url_2010 : text :=
  py "https://en.wikipedia.org/wiki/List_of_Billboard_Hot_100_top-ten_singles_in_2010".

Definition song_a : list cell :=
  [s "January 6"; Str (dquote :: py "Song A" ++ dquote :: py " performed by");
   s "Artist X"; s "3"; s "January 20"; s "5 weeks"; NaN].

Definition song_b : list cell :=
  [s "December 16"; Str (dquote :: py "Song B" ++ [dquote]);
   s "Artist Y"; s "1[2]"; s "January 13 (first week)"; s "12"; s "[3]"].

Definition marker (year : string) : list cell :=
  repeat (Str (py "Singles from " ++ py year)) 7.

(** A page of one year, without marker row. *)
Definition page_1999 : RawTable :=
  {| ncols := 7; rows := [song_a] |}.

(** A page of 2024 whose table opens with a data row, then holds the
    singles that entered in 2023 and those of 2024. *)
Definition page_2024 : RawTable :=
  {| ncols := 7;
     rows := [song_a; marker "2023"; song_b; marker "2024"; song_a] |}.

(** A page of 2024 that starts with the marker of 2023. *)
Definition page_two_years : RawTable :=
  {| ncols := 7;
     rows := [marker "2023"; song_b; marker "2024"; song_a] |}.

(** A page where a cell of [Weeks in Top Ten] holds no digit. *)
Definition page_2010 : RawTable :=
  {| ncols := 6;
     rows := [[s "March 6"; Str (dquote :: py "Song C" ++ [dquote]);
               s "Artist Z"; s "2"; s "March 13"; s "weeks"]] |}.

Definition web (url : text) : response :=
  if text_eqb url url_2024 then Page page_2024
  else if text_eqb url url_1999 then Page page_1999
  else if text_eqb url url_2010 then Page page_2010
  else HttpFailure.

End Sample.

(* ================================================================== *)
(** ** Statements about whole runs *)

(** The frame of one page of a run: the page is fetched, the year is read
    off the URL and the table is processed. *)
Definition page_frame (web : text -> response)
           (to_datetime : list cell -> list (option Timestamp))
           (url : text) (frame : list NormalizedEntry) : Prop :=
  exists year t,
    web url = Page t /\ py_int (last_chars 4 url) = Some year /\
    scrape_table to_datetime year t = Ok frame.

(** The rows of a table that are data: the mask of line 89 is false. *)
Definition data_rows (t : RawTable) : list (list cell) :=
  filter (fun r => negb (is_sentinel r)) (rows (add_ref t)).

Definition no_digit (s : text) : Prop :=
  forall c, In c s -> is_digit c = false.

Definition no_quote (s : text) : Prop := ~ In dquote s.

(** The texts an entry of the Dataset shows under [astype(str)], dates
    apart (a timestamp holds no text). *)
Definition entry_texts (e : NormalizedEntry) : list text :=
  [astype_str (Single_Name e); astype_str (Artists e); str_of_int (Peak e);
   str_of_int (Weeks_in_Top_Ten e); astype_str (Ref e); year_str (Year e)].

(** The test of line 89 on an entry of the Dataset. *)
Definition entry_is_sentinel (e : NormalizedEntry) : bool :=
  existsb contains_sentinel (entry_texts e).

(** *** Statements that the code does not satisfy as first written *)

(** [Peak Date] read with the year assigned to the row. *)
Definition peak_date_uses_row_year
           (to_datetime : list cell -> list (option Timestamp))
           (year : Z) (t : RawTable) : Prop :=
  forall ps out,
    resolve_years year (rows (add_ref t)) = Ok ps ->
    scrape_table to_datetime year t = Ok out ->
    map Peak_Date out =
    to_datetime
      (map (fun p => Str (astype_str (clean_date (nth 4 (fst p) NaN))
                          ++ py " " ++ year_str (snd p))) ps).

Definition count_quotes (s : text) : nat :=
  length (filter (char_is dquote) s).

(** [Single Name] null as soon as the cell holds fewer than two quotes. *)
Definition null_below_two_quotes (s : text) : Prop :=
  (count_quotes s < 2)%nat -> second_piece (Str s) = NaN.

(** *** Writing a Dataset and reading it back *)

Definition year_value (y : option Z) : value :=
  match y with
  | Some z => VInt z
  | None => VNaN
  end.








Definition no_files : files := fun _ => None.

Definition has_carriage_return (s : text) : bool :=
  existsb (char_is carriage_return) s.

Section RoundTrip.

Variables now_stamp repo_root : text.
Variable format_datetimes : list (option Timestamp) -> list text.
Variable read_datetimes : list cell -> list (option Timestamp).
Variable is_float : text -> bool.







End RoundTrip.

(** *** The sentinel rules in one pass *)

(** The data rows with the year the rules give them: [cur] is the year
    read off the nearest marker above, if there is one. *)
Fixpoint walk_years (cur : option Z) (rs : list (list cell))
  : list (list cell * option Z) :=
  match rs with
  | [] => []
  | r :: t =>
      if is_sentinel r
      then walk_years (match sentinel_year r with
                       | Ok y => Some y
                       | Err _ => cur
                       end) t
      else (r, cur) :: walk_years cur t
  end.

(** The tokenizer is about to start a field: after a comma or at the
    start of a line. *)
Definition at_start (st : tstate) : Prop := st = StartField \/ st = StartRecord.


(** A record that the tokenizer reads back as written: two fields or
    more, none with a carriage return. *)
Definition readable_record (r : list text) : Prop :=
  (2 <= length r)%nat /\ Forall (fun f => has_carriage_return f = false) r.


Module RoundTripSample.

(** An entry whose title is one of the fields read as missing, and the
    page it comes from. *)
Definition entry_na : NormalizedEntry :=
  {| Top_Ten_Entry_Date := Sample.midnight 2021 1 9;
     Single_Name := Str (py "N/A");
     Artists := Str (py "Artist X");
     Peak := 3;
     Peak_Date := Sample.midnight 2021 1 23;
     Weeks_in_Top_Ten := 5;
     Ref := NaN;
     Year := Some 2021%Z |}.

Definition url_2021 : text :=
  py "https://en.wikipedia.org/wiki/List_of_Billboard_Hot_100_top-ten_singles_in_2021".

Definition page_2021 : RawTable :=
  {| ncols := 7;
     rows := [[Sample.s "January 9"; Str (dquote :: py "N/A" ++ [dquote]);
               Sample.s "Artist X"; Sample.s "3"; Sample.s "January 23";
               Sample.s "5"; NaN]] |}.

Definition web (url : text) : response :=
  if text_eqb url url_2021 then Page page_2021 else Sample.web url.

(** The Dataset of the page of 2024 of the examples. *)
Definition dataset_2024 : list NormalizedEntry :=
  [ {| Top_Ten_Entry_Date := None;
       Single_Name := Str (py "Song A");
       Artists := Str (py "Artist X");
       Peak := 3;
       Peak_Date := Sample.midnight 2024 1 20;
       Weeks_in_Top_Ten := 5;
       Ref := NaN;
       Year := None |};
    {| Top_Ten_Entry_Date := Sample.midnight 2023 12 16;
       Single_Name := Str (py "Song B");
       Artists := Str (py "Artist Y");
       Peak := 1;
       Peak_Date := Sample.midnight 2024 1 13;
       Weeks_in_Top_Ten := 12;
       Ref := Str (py "[3]");
       Year := Some 2023%Z |};
    {| Top_Ten_Entry_Date := Sample.midnight 2024 1 6;
       Single_Name := Str (py "Song A");
       Artists := Str (py "Artist X");
       Peak := 3;
       Peak_Date := Sample.midnight 2024 1 20;
       Weeks_in_Top_Ten := 5;
       Ref := NaN;
       Year := Some 2024%Z |} ].

Definition now_stamp : text := py "2026_11".

Definition repo_root : text := py "/home/user/wiki_popular_music".

End RoundTripSample.

(** *** Further statements on the scraper *)

(** What a page that gives a frame leaves in the trace. *)
Definition page_events (url : text) : list event :=
  [Print (py "Scraping URL: " ++ url); HttpGet url; Sleep].

(** The text handed to [pd.to_datetime] for [Top Ten Entry Date], from the
    raw row and the year assigned to it. *)
Definition entry_date_of (p : list cell * option Z) : cell :=
  Str (astype_str (str_map strip
                     (str_map remove_citations
                        (str_map remove_parens (nth 0 (fst p) NaN))))
       ++ py " " ++ year_str (snd p)).

(* ================================================================== *)
(** ** Discovery of the pages and the whole program: [get_links], [main] *)

Definition BASE_URL : text :=
  py "https://en.wikipedia.org/wiki/Lists_of_Billboard_Hot_100_top-ten_singles".

Definition link_prefix : text :=
  py "/wiki/List_of_Billboard_Hot_100_top-ten_singles_in".

Definition site : text := py "https://en.wikipedia.org".

(** [s.startswith(p)] *)
Definition starts_with (p s : text) : bool :=
  match strip_prefix p s with
  | Some _ => true
  | None => false
  end.

(** [list(set(l))] lists the distinct elements of [l], in an order that
    the program does not fix: this is all that is known of it. *)
Definition set_listing (list_of_set : list text -> list text) : Prop :=
  forall l, NoDup (list_of_set l) /\
            forall x, In x (list_of_set l) <-> In x l.


(** The URLs fetched, in order. *)
Definition fetched (trace : list event) : list text :=
  flat_map (fun ev => match ev with HttpGet url => [url] | _ => [] end) trace.

(** The file [save_to_csv] writes when it is given no name. *)
Definition default_path (now_stamp repo_root : text) : text :=
  path_join (path_join repo_root (py "data"))
            (py "billboard_data_" ++ now_stamp ++ py ".csv").

Section Discovery.

(** [requests.get] with [raise_for_status] and
    [soup.find_all('a', href=True)] on the index page: the values of
    [href] in the order of the document, or no answer. *)
Variable index_links : text -> option (list text).

Variable list_of_set : list text -> list text.

Local Open Scope prog_scope.

(** [get_links(url)] *)
Definition get_links (url : text) : M (list text) :=
  emit (HttpGet url) ;;
  match index_links url with
  | None => raise HTTPError
  | Some hrefs =>
      ret (list_of_set
             (map (fun href => site ++ href)
                  (filter (starts_with link_prefix) hrefs)))
  end.

Variable web : text -> response.
Variable to_datetime : list cell -> list (option Timestamp).
Variables now_stamp repo_root : text.
Variable format_datetimes : list (option Timestamp) -> list text.

(** [main()] *)
Definition main : M unit :=
  links <- get_links BASE_URL ;;
  data <- scrape_data web to_datetime (Some links) ;;
  save_to_csv now_stamp repo_root format_datetimes data None.

End Discovery.

Module DiscoverySample.

(** An index page that links twice to the page of 1999, once to the page
    of 2024, and to pages that are not lists of a year. *)
Definition hrefs : list text :=
  [py "/wiki/Billboard_Hot_100";
   py "/wiki/List_of_Billboard_Hot_100_top-ten_singles_in_1999";
   py "/wiki/List_of_Billboard_Hot_100_top-ten_singles_in_2024";
   py "/wiki/List_of_Billboard_Hot_100_top-ten_singles_in_1999";
   py "#cite_note-1"].

Definition index_links (url : text) : option (list text) :=
  if text_eqb url BASE_URL then Some hrefs else None.

(** An index page without any link to a list. *)
Definition index_without_lists (url : text) : option (list text) :=
  if text_eqb url BASE_URL
  then Some [py "/wiki/Billboard_Hot_100"; py "#cite_note-1"]
  else None.

Definition text_eq_dec : forall a b : text, {a = b} + {a <> b} :=
  list_eq_dec ascii_dec.

(** The distinct elements, each at its last occurrence. *)
Definition list_of_set (l : list text) : list text := nodup text_eq_dec l.

End DiscoverySample.

(* ================================================================== *)
(** ** The analyses of [billboard_analysis.py] *)

(** *** [peak_position_insights]: the bins of the peak *)

(** [pd.cut(x, bins, labels=labels)] on one integer, for increasing bins:
    the label of the interval [(bins[i], bins[i+1]]] that holds [x], and
    no label outside of them. *)
Fixpoint cut (bins : list Z) (labels : list text) (x : Z) : option text :=
  match bins, labels with
  | lo :: ((hi :: _) as bins'), l :: labels' =>
      if ((lo <? x) && (x <=? hi))%Z then Some l else cut bins' labels' x
  | _, _ => None
  end.

(** [pd.cut(df["Peak"], bins=[0,1,3,5,10], labels=["1","2-3","4-5","6-10"])]
    on one integer peak *)
Definition Peak_bin (peak : Z) : option text :=
  cut [0; 1; 3; 5; 10]%Z [py "1"; py "2-3"; py "4-5"; py "6-10"] peak.

(** *** [yearly_trends]: the eras *)

Section Eras.

(** [f <= bound] on a float that is not written as an integer. *)
Variable float_le : float_expr -> Z -> bool.

(** [y <= bound] on a value of the column [Year]: every comparison with
    [NaN] is false, a boolean counts as 0 or 1, a text or a date cannot be
    compared with an integer. *)
Definition year_le (y : value) (bound : Z) : result bool :=
  match y with
  | VInt z => Ok (z <=? bound)%Z
  | VFloat f => Ok (float_le f bound)
  | VBool b => Ok ((if b then 1 else 0) <=? bound)%Z
  | VNaN => Ok false
  | VStr _ | VTime _ | VNaT => Err TypeError
  end.

Definition era_map (y : value) : result text :=
  rbind (year_le y 1999) (fun early =>
  if early then Ok (py "Pre-digital")
  else rbind (year_le y 2014) (fun digital =>
       if digital then Ok (py "Digital")
       else Ok (py "Streaming"))).

End Eras.

(** *** [collaboration_network]: the names and the edges *)

(** [s.replace(old, new)] for a non-empty [old]: the occurrences are found
    left to right and do not overlap; [skip] counts the characters of the
    current occurrence that are still to be dropped. *)
Fixpoint replace_from (old new : text) (skip : nat) (s : text) : text :=
  match s with
  | [] => []
  | c :: t =>
      match skip with
      | S k => replace_from old new k t
      | O => match strip_prefix old s with
             | Some _ => new ++ replace_from old new (length old - 1) t
             | None => c :: replace_from old new 0 t
             end
      end
  end.

Definition replace (old new s : text) : text := replace_from old new 0 s.

Definition truthy (s : text) : bool :=
  match s with
  | [] => false
  | _ :: _ => true
  end.

(** [[a.strip() for a in
      artists.replace("feat.", ",").replace("&", ",").split(",")
      if a.strip()]] *)
Definition artist_names (artists : text) : list text :=
  map strip
      (filter (fun a => truthy (strip a))
              (split ","%char
                     (replace (py "&") (py ",")
                              (replace (py "feat.") (py ",") artists)))).

(** The calls [G.add_edge(names[i], names[j])] of the two loops, in
    order. *)
Definition credit_edges (names : list text) : list (text * text) :=
  flat_map (fun i =>
              map (fun j => (nth i names [], nth j names []))
                  (seq (S i) (length names - S i)))
           (seq 0 (length names)).

(** The calls of [add_edge] over the column [Artist(s)], read as text:
    [dropna()] leaves the missing credits out. *)
Definition collaboration_edges (credits : list cell) : list (text * text) :=
  flat_map (fun c => match c with
                     | Str s => credit_edges (artist_names s)
                     | _ => []
                     end) credits.

(** The nodes of the graph: [add_edge] is the only call that adds one. *)
Definition collaboration_nodes (credits : list cell) : list text :=
  flat_map (fun ab => [fst ab; snd ab]) (collaboration_edges credits).

(* ================================================================== *)
(** * Properties *)

(** ** Characters and text *)

Lemma char_is_eq (a c : ascii) : char_is a c = true <-> a = c.
Proof. unfold char_is. apply Ascii.eqb_eq. Qed.

Lemma char_is_neq (a c : ascii) : char_is a c = false <-> a <> c.
Proof. unfold char_is. apply Ascii.eqb_neq. Qed.

Lemma char_is_refl (a : ascii) : char_is a a = true.
Proof. apply char_is_eq. reflexivity. Qed.

Lemma text_eqb_eq (a b : text) : text_eqb a b = true <-> a = b.
Proof.
  revert b. induction a as [|x a IH]; intros [|y b]; simpl; split;
    try congruence; intro H.
  - apply andb_true_iff in H. destruct H as [Hx Ha].
    apply Ascii.eqb_eq in Hx. apply IH in Ha. congruence.
  - inversion H; subst. rewrite Ascii.eqb_refl. simpl. apply IH. reflexivity.
Qed.

Lemma text_eqb_refl (a : text) : text_eqb a a = true.
Proof. apply text_eqb_eq. reflexivity. Qed.

Lemma digit_not_space (c : ascii) : is_digit c = true -> is_space c = false.
Proof.
  unfold is_digit, is_space. intro H. cbv zeta.
  apply andb_true_iff in H. destruct H as [H1 H2].
  apply Nat.leb_le in H1. apply Nat.leb_le in H2.
  assert (E1 : (code c <=? 13)%nat = false) by (apply Nat.leb_gt; lia).
  assert (E2 : (code c <=? 32)%nat = false) by (apply Nat.leb_gt; lia).
  assert (E3 : (code c =? 133)%nat = false) by (apply Nat.eqb_neq; lia).
  assert (E4 : (code c =? 160)%nat = false) by (apply Nat.eqb_neq; lia).
  rewrite E1, E2, E3, E4. rewrite !andb_false_r. reflexivity.
Qed.

Lemma digit_not_char (a c : ascii) :
  is_digit a = false -> is_digit c = true -> char_is a c = false.
Proof.
  intros Ha Hc. apply char_is_neq. intro E. subst. congruence.
Qed.

(** ** Exceptions *)

Lemma rbind_ok {A B} (r : result A) (f : A -> result B) (b : B) :
  rbind r f = Ok b -> exists a, r = Ok a /\ f a = Ok b.
Proof.
  destruct r as [a|e]; simpl; intro H; [exists a; auto | discriminate].
Qed.

Lemma map_result_ok {A B} (f : A -> result B) (l : list A) (l' : list B) :
  map_result f l = Ok l' <-> Forall2 (fun a b => f a = Ok b) l l'.
Proof.
  revert l'. induction l as [|a l IH]; intros l'; simpl.
  - split; intro H.
    + inversion H. constructor.
    + inversion H. reflexivity.
  - split; intro H.
    + apply rbind_ok in H. destruct H as [b [Hb H]].
      apply rbind_ok in H. destruct H as [bs [Hbs H]].
      inversion H; subst. constructor; [assumption | apply IH; assumption].
    + inversion H as [|? b ? bs Hb Hbs]; subst.
      rewrite Hb. simpl. apply IH in Hbs. rewrite Hbs. reflexivity.
Qed.

Lemma map_result_total {A B} (f : A -> result B) (l : list A) :
  (forall a, In a l -> exists b, f a = Ok b) ->
  exists l', map_result f l = Ok l'.
Proof.
  induction l as [|a l IH]; intro H; simpl.
  - exists []. reflexivity.
  - destruct (H a (or_introl eq_refl)) as [b Hb].
    destruct IH as [l' Hl']. { intros x Hx. apply H. right. assumption. }
    exists (b :: l'). rewrite Hb. simpl. rewrite Hl'. reflexivity.
Qed.

(** ** Searching a text *)

Lemma search_some (m : text -> bool) (s u : text) :
  search m s = Some u -> m u = true /\ exists pre, s = pre ++ u.
Proof.
  induction s as [|c s IH]; simpl.
  - destruct (m []) eqn:E; intro H; inversion H; subst.
    split; [assumption | exists []; reflexivity].
  - destruct (m (c :: s)) eqn:E; intro H.
    + inversion H; subst. split; [assumption | exists []; reflexivity].
    + destruct (IH H) as [Hu [pre Hpre]]. split; [assumption|].
      exists (c :: pre). simpl. congruence.
Qed.

Lemma search_found (m : text -> bool) (pre u : text) :
  m u = true -> exists u', search m (pre ++ u) = Some u'.
Proof.
  intro Hu. induction pre as [|c pre IH]; simpl.
  - destruct u; simpl; rewrite Hu; eauto.
  - destruct (m (c :: pre ++ u)); eauto.
Qed.

Lemma strip_prefix_some (p s r : text) :
  strip_prefix p s = Some r -> s = p ++ r.
Proof.
  revert s. induction p as [|a p IH]; intros [|c s]; simpl; intro H;
    try congruence.
  destruct (char_is a c) eqn:E; [|discriminate].
  apply char_is_eq in E. subst. f_equal. apply IH. assumption.
Qed.

Lemma strip_prefix_app (p s r b : text) :
  strip_prefix p s = Some r -> strip_prefix p (s ++ b) = Some (r ++ b).
Proof.
  revert s. induction p as [|a p IH]; intros s; simpl; intro H.
  - inversion H; subst. reflexivity.
  - destruct s as [|c s]; [discriminate|]. simpl.
    destruct (char_is a c); [apply IH; assumption | discriminate].
Qed.

Lemma four_digits_app (u b : text) :
  four_digits u = true -> four_digits (u ++ b) = true.
Proof.
  destruct u as [|c1 [|c2 [|c3 [|c4 u]]]]; simpl; try discriminate. auto.
Qed.

Lemma sentinel_at_app (u b : text) :
  sentinel_at u = true -> sentinel_at (u ++ b) = true.
Proof.
  unfold sentinel_at. destruct (strip_prefix _ u) as [r|] eqn:E; [|discriminate].
  intro H. rewrite (strip_prefix_app _ _ b E). apply four_digits_app. assumption.
Qed.

Lemma contains_sentinel_inside (a t b : text) :
  contains_sentinel t = true -> contains_sentinel (a ++ t ++ b) = true.
Proof.
  unfold contains_sentinel. destruct (search sentinel_at t) as [u|] eqn:E;
    [|discriminate]. intros _.
  apply search_some in E. destruct E as [Hu [pre Hpre]]. subst t.
  destruct (search_found sentinel_at (a ++ pre) (u ++ b)
              (sentinel_at_app u b Hu)) as [u' Hu'].
  rewrite <- !app_assoc in *. rewrite Hu'. reflexivity.
Qed.

Lemma contains_sentinel_four_digits (t : text) :
  contains_sentinel t = true ->
  exists pre v, t = pre ++ v /\ four_digits v = true.
Proof.
  unfold contains_sentinel. destruct (search sentinel_at t) as [u|] eqn:E;
    [|discriminate]. intros _.
  apply search_some in E. destruct E as [Hu [pre Hpre]].
  unfold sentinel_at in Hu.
  destruct (strip_prefix _ u) as [r|] eqn:Er; [|discriminate].
  apply strip_prefix_some in Er. exists (pre ++ py "Singles from "), r.
  split; [|assumption]. rewrite <- app_assoc. congruence.
Qed.

Lemma join_in (sep t : text) (l : list text) :
  In t l -> exists a b, join sep l = a ++ t ++ b.
Proof.
  induction l as [|x l IH]; intro H; [contradiction|].
  destruct H as [-> | H].
  - destruct l as [|y l].
    + exists [], []. simpl. rewrite app_nil_r. reflexivity.
    + exists [], (sep ++ join sep (y :: l)). reflexivity.
  - destruct (IH H) as [a [b Hab]]. destruct l as [|y l]; [contradiction|].
    exists (x ++ sep ++ a), b.
    change (join sep (x :: y :: l)) with (x ++ sep ++ join sep (y :: l)).
    rewrite Hab. rewrite <- !app_assoc. reflexivity.
Qed.

(** ** Integers read from digits *)

Lemma int_body_digits (d : text) (acc : Z) (after_digit : bool) :
  forallb is_digit d = true ->
  (d <> [] \/ after_digit = true) ->
  int_body acc after_digit d = Some (digits_value acc d).
Proof.
  revert acc after_digit. induction d as [|c d IH]; intros acc ad Hd Hne; simpl.
  - destruct Hne as [Hne | ->]; [congruence | reflexivity].
  - simpl in Hd. apply andb_true_iff in Hd. destruct Hd as [Hc Hd].
    rewrite Hc. apply IH; auto.
Qed.

Lemma lstrip_digit (c : ascii) (s : text) :
  is_digit c = true -> lstrip (c :: s) = c :: s.
Proof. intro H. simpl. rewrite (digit_not_space c H). reflexivity. Qed.

Lemma strip_digits (d : text) :
  forallb is_digit d = true -> strip d = d.
Proof.
  intro Hd. unfold strip, rstrip.
  assert (L : forall s, forallb is_digit s = true -> lstrip s = s).
  { intros [|c s] H; [reflexivity|]. simpl in H.
    apply andb_true_iff in H. apply lstrip_digit. tauto. }
  rewrite (L d Hd). rewrite L.
  - apply rev_involutive.
  - rewrite forallb_forall in *. intros x Hx. apply Hd.
    apply in_rev. assumption.
Qed.

Lemma py_int_digits (d : text) :
  d <> [] -> forallb is_digit d = true ->
  py_int d = Some (digits_value 0 d).
Proof.
  intros Hne Hd. unfold py_int. rewrite (strip_digits d Hd).
  destruct d as [|c d]; [congruence|].
  assert (Hc : is_digit c = true).
  { simpl in Hd. apply andb_true_iff in Hd. tauto. }
  rewrite (digit_not_char "-" c), (digit_not_char "+" c) by (auto; reflexivity).
  apply int_body_digits; auto.
Qed.

(** ** The year of a marker row *)

Lemma four_digits_firstn (v : text) :
  four_digits v = true ->
  firstn 4 v <> [] /\ forallb is_digit (firstn 4 v) = true.
Proof.
  destruct v as [|c1 [|c2 [|c3 [|c4 v]]]]; simpl; try discriminate.
  intro H. split; [discriminate|].
  rewrite !andb_true_iff in H. destruct H as [[[H1 H2] H3] H4].
  rewrite H1, H2, H3, H4. reflexivity.
Qed.

(** The year of a marker row is always found: the pattern of the mask
    itself ends in four digits. *)
Lemma sentinel_year_ok (cells : list cell) :
  is_sentinel cells = true -> exists y, sentinel_year cells = Ok y.
Proof.
  unfold is_sentinel, sentinel_year, search_four_digits. intro H.
  apply existsb_exists in H. destruct H as [t [Hin Ht]].
  destruct (join_in (py " ") t (row_texts cells) Hin) as [a [b Hab]].
  destruct (contains_sentinel_four_digits t Ht) as [pre [v [Hv H4]]].
  destruct (search_found four_digits (a ++ pre) (v ++ b)
              (four_digits_app v b H4)) as [u Hu].
  rewrite Hab, Hv. rewrite <- !app_assoc in *. rewrite Hu. cbn [option_map].
  apply search_some in Hu. destruct Hu as [Hu _].
  apply four_digits_firstn in Hu. destruct Hu as [Hne Hd].
  rewrite (py_int_digits Hne Hd). eauto.
Qed.

(** ** The sentinel logic *)

Lemma filter_none_nil {A} (f : A -> bool) (l : list A) :
  (forall a, In a l -> f a = false) <-> filter f l = [].
Proof.
  induction l as [|a l IH]; simpl.
  - tauto.
  - destruct (f a) eqn:E; split; intro H.
    + specialize (H a (or_introl eq_refl)). congruence.
    + discriminate.
    + apply IH. intros x Hx. apply H. auto.
    + intros x [<-|Hx]; [assumption|]. apply IH; assumption.
Qed.

Lemma filter_all {A} (f : A -> bool) (l : list A) :
  (forall a, In a l -> f a = true) -> filter f l = l.
Proof.
  induction l as [|a l IH]; simpl; intro H; [reflexivity|].
  rewrite (H a (or_introl eq_refl)). f_equal. apply IH. auto.
Qed.

Lemma ffill_constant (y : Z) (last : option Z) {A} (l : list A) :
  ffill last (map (fun _ => Some y) l) = map (fun _ => Some y) l.
Proof.
  revert last. induction l as [|a l IH]; intro last; simpl; [reflexivity|].
  f_equal. apply IH.
Qed.

Lemma combine_map_r {A B} (f : A -> B) (l : list A) :
  combine l (map f l) = map (fun a => (a, f a)) l.
Proof. induction l as [|a l IH]; simpl; [reflexivity | f_equal; apply IH]. Qed.

(** Without marker every row takes the year of the URL. *)
Lemma resolve_years_plain (year : Z) (rs : list (list cell)) :
  (forall r, In r rs -> is_sentinel r = false) ->
  resolve_years year rs = Ok (map (fun r => (r, Some year)) rs).
Proof.
  intro H. unfold resolve_years, mark_years.
  rewrite (proj1 (filter_none_nil is_sentinel rs) H). simpl.
  rewrite ffill_constant, combine_map_r. f_equal.
  apply filter_all. intros p Hp. apply in_map_iff in Hp.
  destruct Hp as [r [<- Hr]]. simpl. rewrite (H r Hr). reflexivity.
Qed.

(** The mark, the forward fill and the drop of the markers amount to the
    single pass [walk_years]. *)
Lemma filter_ffill_walk (rs : list (list cell)) (marks : list (option Z)) :
  Forall2 (fun r mk =>
             (if is_sentinel r
              then rbind (sentinel_year r) (fun y => Ok (Some y))
              else Ok None) = Ok mk) rs marks ->
  forall cur,
    filter (fun p => negb (is_sentinel (fst p))) (combine rs (ffill cur marks))
    = walk_years cur rs.
Proof.
  induction 1 as [|r mk rs marks Hr _ IH]; intro cur; simpl; [reflexivity|].
  destruct (is_sentinel r) eqn:Es.
  - apply rbind_ok in Hr. destruct Hr as [y [Hy Hmk]].
    inversion Hmk; subst. rewrite Hy. simpl. rewrite Es. simpl. apply IH.
  - inversion Hr; subst. simpl. rewrite Es. simpl. f_equal. apply IH.
Qed.

Lemma resolve_years_marked (year : Z) (rs : list (list cell)) :
  filter is_sentinel rs <> [] ->
  resolve_years year rs = Ok (walk_years None rs).
Proof.
  intro H. unfold resolve_years, mark_years.
  destruct (filter is_sentinel rs) as [|m ms] eqn:E; [congruence|]. simpl.
  destruct (map_result_total
              (fun r => if is_sentinel r
                        then rbind (sentinel_year r) (fun y => Ok (Some y))
                        else Ok None) rs) as [marks Hm].
  { intros r _. destruct (is_sentinel r) eqn:Es; [|eauto].
    destruct (sentinel_year_ok r Es) as [y Hy]. rewrite Hy. simpl. eauto. }
  rewrite Hm. simpl. f_equal. apply filter_ffill_walk.
  apply map_result_ok. assumption.
Qed.

(** The sentinel logic raises no exception. *)
Lemma resolve_years_total (year : Z) (rs : list (list cell)) :
  exists ps, resolve_years year rs = Ok ps /\
             map fst ps = filter (fun r => negb (is_sentinel r)) rs.
Proof.
  assert (W : forall l cur, map fst (walk_years cur l)
                            = filter (fun r => negb (is_sentinel r)) l).
  { induction l as [|r l IH]; intro cur; simpl; [reflexivity|].
    destruct (is_sentinel r); simpl; [apply IH | f_equal; apply IH]. }
  destruct (filter is_sentinel rs) as [|m ms] eqn:E.
  - pose proof (proj2 (filter_none_nil is_sentinel rs) E) as N. clear E.
    rename N into E.
    exists (map (fun r => (r, Some year)) rs). split.
    + apply resolve_years_plain. assumption.
    + rewrite map_map. simpl. rewrite map_id. symmetry. apply filter_all.
      intros r Hr. rewrite (E r Hr). reflexivity.
  - exists (walk_years None rs). split; [|apply W].
    apply resolve_years_marked. congruence.
Qed.

Lemma walk_years_data (seg rest : list (list cell)) (cur : option Z) :
  (forall r, In r seg -> is_sentinel r = false) ->
  walk_years cur (seg ++ rest)
  = map (fun r => (r, cur)) seg ++ walk_years cur rest.
Proof.
  induction seg as [|r seg IH]; intro H; simpl; [reflexivity|].
  rewrite (H r (or_introl eq_refl)). f_equal. apply IH.
  intros x Hx. apply H. right. exact Hx.
Qed.



(** ** The frame of a page *)

Lemma assemble_length (rs : list Row) (i : nat)
      (eds pds : list (option Timestamp)) (ws ps : list Z) :
  length (assemble i rs eds pds ws ps) = length rs.
Proof.
  revert i. induction rs as [|r rs IH]; intro i; simpl; [reflexivity|].
  f_equal. apply IH.
Qed.

Lemma assemble_rows (rs : list Row) (i : nat)
      (eds pds : list (option Timestamp)) (ws ps : list Z) :
  map Year (assemble i rs eds pds ws ps) = map r_year rs /\
  map Single_Name (assemble i rs eds pds ws ps)
  = map (fun r => second_piece (r_single_name r)) rs /\
  map Artists (assemble i rs eds pds ws ps) = map r_artists rs /\
  map Ref (assemble i rs eds pds ws ps) = map r_ref rs.
Proof.
  revert i. induction rs as [|r rs IH]; intro i; simpl; [auto|].
  destruct (IH (S i)) as [H1 [H2 [H3 H4]]].
  rewrite H1, H2, H3, H4. auto.
Qed.

Lemma assemble_nth (rs : list Row) (i k : nat)
      (eds pds : list (option Timestamp)) (ws ps : list Z) :
  (k < length rs)%nat ->
  exists e, nth_error (assemble i rs eds pds ws ps) k = Some e /\
            Top_Ten_Entry_Date e = nth (i + k) eds None /\
            Peak_Date e = nth (i + k) pds None /\
            Weeks_in_Top_Ten e = nth (i + k) ws 0%Z /\
            Peak e = nth (i + k) ps 0%Z.
Proof.
  revert i k. induction rs as [|r rs IH]; intros i k Hk; simpl in Hk; [lia|].
  destruct k as [|k]; simpl.
  - eexists. split; [reflexivity|]. simpl. rewrite Nat.add_0_r. auto.
  - destruct (IH (S i) k) as [e He]; [lia|]. exists e.
    replace (i + S k)%nat with (S i + k)%nat by lia. assumption.
Qed.

(** What a successful page went through. *)
Lemma scrape_table_ok (to_datetime : list cell -> list (option Timestamp))
      (year : Z) (t : RawTable) (out : list NormalizedEntry) :
  scrape_table to_datetime year t = Ok out ->
  exists ps weeks peaks,
    resolve_years year (rows (add_ref t)) = Ok ps /\
    map fst ps = data_rows t /\
    (ncols (add_ref t) = 7)%nat /\
    Forall2 (fun p w => extract_int (nth 5 (fst p) NaN) = Ok w) ps weeks /\
    Forall2 (fun p k => extract_int (nth 3 (fst p) NaN) = Ok k) ps peaks /\
    out = assemble 0 (map name_columns ps)
            (to_datetime (map entry_date_text (map name_columns ps)))
            (to_datetime (map (peak_date_text year) (map name_columns ps)))
            weeks peaks.
Proof.
  unfold scrape_table. intro H.
  apply rbind_ok in H. destruct H as [ps [Hps H]].
  apply rbind_ok in H. destruct H as [rs [Hrs H]].
  unfold rename in Hrs.
  destruct (ncols (add_ref t) + 1 =? length column_names)%nat eqn:En;
    [|discriminate].
  inversion Hrs; subst rs. clear Hrs.
  unfold normalize in H.
  apply rbind_ok in H. destruct H as [weeks [Hw H]].
  apply rbind_ok in H. destruct H as [peaks [Hp H]].
  inversion H; subst out. clear H.
  exists ps, weeks, peaks.
  destruct (resolve_years_total year (rows (add_ref t))) as [ps' [Hps' Hfst]].
  rewrite Hps in Hps'. inversion Hps'; subst ps'.
  apply Nat.eqb_eq in En. simpl in En.
  apply map_result_ok in Hw. apply map_result_ok in Hp.
  repeat split; try assumption; try lia.
  - clear -Hw. remember (map name_columns ps) as rs eqn:E. revert ps E.
    induction Hw; intros [|p ps] E; simpl in E; try discriminate; constructor.
    + inversion E; subst. assumption.
    + apply IHHw. inversion E; reflexivity.
  - clear -Hp. remember (map name_columns ps) as rs eqn:E. revert ps E.
    induction Hp; intros [|p ps] E; simpl in E; try discriminate; constructor.
    + inversion E; subst. assumption.
    + apply IHHp. inversion E; reflexivity.
Qed.

(** ** A page that gives a frame *)

Lemma Forall2_map_left {A B C} (f : A -> B) (P : B -> C -> Prop)
      (l : list A) (l' : list C) :
  Forall2 (fun a c => P (f a) c) l l' -> Forall2 P (map f l) l'.
Proof. induction 1; simpl; constructor; assumption. Qed.

(** The converse of [scrape_table_ok]: a page whose numeric cells all
    hold digits gives a frame. *)
Lemma scrape_table_complete
      (to_datetime : list cell -> list (option Timestamp))
      (year : Z) (t : RawTable) ps weeks peaks :
  resolve_years year (rows (add_ref t)) = Ok ps ->
  (ncols (add_ref t) = 7)%nat ->
  Forall2 (fun p w => extract_int (nth 5 (fst p) NaN) = Ok w) ps weeks ->
  Forall2 (fun p k => extract_int (nth 3 (fst p) NaN) = Ok k) ps peaks ->
  scrape_table to_datetime year t
  = Ok (assemble 0 (map name_columns ps)
          (to_datetime (map entry_date_text (map name_columns ps)))
          (to_datetime (map (peak_date_text year) (map name_columns ps)))
          weeks peaks).
Proof.
  intros Hps Hn Hw Hp. unfold scrape_table. rewrite Hps. simpl.
  unfold rename. rewrite Hn. simpl. unfold normalize.
  assert (W : map_result (fun r => extract_int (r_weeks r))
                         (map name_columns ps) = Ok weeks).
  { apply map_result_ok. apply Forall2_map_left. exact Hw. }
  assert (P : map_result (fun r => extract_int (r_peak r))
                         (map name_columns ps) = Ok peaks).
  { apply map_result_ok. apply Forall2_map_left. exact Hp. }
  rewrite W. simpl. rewrite P. reflexivity.
Qed.

(** ** Rows above the first marker *)

(** On a page that has a marker, the data rows above the first one keep
    the [pd.NA] the column was created with. *)
Lemma rows_above_first_marker (year : Z) (pre rest : list (list cell))
      (m : list cell) :
  (forall r, In r pre -> is_sentinel r = false) ->
  is_sentinel m = true ->
  exists after,
    resolve_years year (pre ++ m :: rest)
    = Ok (map (fun r => (r, None)) pre ++ after).
Proof.
  intros Hpre Hm. rewrite resolve_years_marked.
  - rewrite walk_years_data by assumption. eauto.
  - intro E.
    pose proof (proj2 (filter_none_nil is_sentinel _) E m) as N.
    rewrite N in Hm; [discriminate|]. apply in_or_app. right. left. reflexivity.
Qed.

(** C2. On the page of 2024 of the examples, whose table opens with a data
    row above the marker of 2023, the run succeeds and the first entry of
    the Dataset has no [Year]: the claim that every entry carries one
    fails on this input. *)
Example year_missing_before_first_marker :
  exists trace e rest,
    scrape_data Sample.web Sample.to_datetime (Some [Sample.url_2024])
    = (trace, Ok (Dataset (e :: rest))) /\
    Single_Name e = Str (py "Song A") /\
    Year e = None.
Proof.
  do 3 eexists. split; [vm_compute; reflexivity|]. split; reflexivity.
Qed.

(** ** Peak Date *)

(** C3, as first stated, fails on a page of 2024 that lists the singles of
    2023 under their marker, then those of 2024: the entry that follows
    the marker of 2023 has its [Peak Date] read with 2024, the year of the
    URL, not with 2023, the year assigned to the row. *)
Lemma peak_date_row_year_refuted :
  ~ peak_date_uses_row_year Sample.to_datetime 2024 Sample.page_two_years.
Proof.
  unfold peak_date_uses_row_year. intro H.
  specialize (H _ _ eq_refl eq_refl). vm_compute in H. discriminate.
Qed.

(** C3, amended. For every data row of a page, [Peak Date] is what
    [pd.to_datetime] reads in the raw cell once the parenthesised part,
    then the bracketed citation numbers, then the surrounding white space
    are removed and the year of the URL is appended after a space. A date
    that cannot be read is null and the row stays: there are as many
    entries as data rows, whatever the date parser answers. *)
Theorem peak_date_uses_url_year
        (to_datetime : list cell -> list (option Timestamp))
        (year : Z) (t : RawTable) (out : list NormalizedEntry) :
  scrape_table to_datetime year t = Ok out ->
  length out = length (data_rows t) /\
  (forall i, (i < length (data_rows t))%nat ->
     option_map Peak_Date (nth_error out i)
     = Some (nth i (to_datetime
                      (map (fun r =>
                              Str (astype_str
                                     (str_map strip
                                        (str_map remove_citations
                                           (str_map remove_parens (nth 4 r NaN))))
                                   ++ py " " ++ str_of_int year))
                           (data_rows t)))
                 None)) /\
  (forall to_datetime' : list cell -> list (option Timestamp),
      exists out', scrape_table to_datetime' year t = Ok out' /\
                   length out' = length out).
Proof.
  intro H. apply scrape_table_ok in H.
  destruct H as [ps [weeks [peaks [Hps [Hfst [Hn [Hw [Hp Hout]]]]]]]].
  assert (L : length out = length (data_rows t)).
  { subst out. rewrite assemble_length, <- Hfst, !length_map. reflexivity. }
  split; [exact L|]. split.
  - intros i Hi. subst out.
    destruct (@assemble_nth (map name_columns ps) 0 i
                (to_datetime (map entry_date_text (map name_columns ps)))
                (to_datetime (map (peak_date_text year) (map name_columns ps)))
                weeks peaks) as [e [He [_ [Hpd _]]]].
    { rewrite length_map, <- (length_map fst), Hfst. exact Hi. }
    rewrite He. simpl. rewrite Hpd. simpl. f_equal. f_equal. f_equal.
    rewrite <- Hfst, !map_map. reflexivity.
  - intro to_datetime'. eexists. split.
    + apply scrape_table_complete; eassumption.
    + rewrite assemble_length. subst out. rewrite assemble_length. reflexivity.
Qed.

Lemma peak_date_uses_url_year_witness :
  exists out,
    scrape_table Sample.to_datetime 2024 Sample.page_2024 = Ok out /\
    length out = 3%nat /\
    option_map Peak_Date (nth_error out 1) = Some (Sample.midnight 2024 1 13).
Proof.
  destruct (scrape_table Sample.to_datetime 2024 Sample.page_2024)
    as [out|e] eqn:E; [|vm_compute in E; discriminate].
  exists out. split; [reflexivity|].
  destruct (peak_date_uses_url_year _ _ _ E) as [L [P _]].
  split.
  - rewrite L. vm_compute. reflexivity.
  - rewrite (P 1%nat); [vm_compute; reflexivity | vm_compute; lia].
Defined.

(** ** Single Name *)

Lemma split_no_sep (sep : ascii) (s : text) :
  ~ In sep s -> split sep s = [s].
Proof.
  induction s as [|c s IH]; intro H; simpl; [reflexivity|].
  destruct (char_is sep c) eqn:E.
  - apply char_is_eq in E. subst. exfalso. apply H. left. reflexivity.
  - rewrite IH; [reflexivity|]. intro N. apply H. right. exact N.
Qed.

Lemma split_at_sep (sep : ascii) (a rest : text) :
  ~ In sep a -> split sep (a ++ sep :: rest) = a :: split sep rest.
Proof.
  induction a as [|c a IH]; intro H; simpl.
  - rewrite char_is_refl. reflexivity.
  - destruct (char_is sep c) eqn:E.
    + apply char_is_eq in E. subst. exfalso. apply H. left. reflexivity.
    + rewrite IH; [reflexivity|]. intro N. apply H. right. exact N.
Qed.

(** C4, as first stated, fails on a cell with exactly one quote: the field
    is the text after the quote, not null. *)
Lemma single_quote_not_null :
  ~ null_below_two_quotes (dquote :: py "Song A").
Proof.
  unfold null_below_two_quotes. intro H.
  assert (L : (count_quotes (dquote :: py "Song A") < 2)%nat)
    by (vm_compute; lia).
  specialize (H L). vm_compute in H. discriminate.
Qed.

(** C4, amended. [Single Name] is the text between the first quote of the
    raw cell and the second one; when there is no second quote it is the
    text after the first one, to the end; it is null when the cell holds
    no quote. This is the field of every entry of a page's frame. *)
Theorem single_name_between_quotes :
  (forall a b c,
      no_quote a -> no_quote b ->
      second_piece (Str (a ++ dquote :: b ++ dquote :: c)) = Str b) /\
  (forall a b,
      no_quote a -> no_quote b ->
      second_piece (Str (a ++ dquote :: b)) = Str b) /\
  (forall s, no_quote s -> second_piece (Str s) = NaN) /\
  (forall (to_datetime : list cell -> list (option Timestamp)) year t out,
      scrape_table to_datetime year t = Ok out ->
      map Single_Name out
      = map (fun r => second_piece (nth 1 r NaN)) (data_rows t)).
Proof.
  unfold no_quote. repeat split.
  - intros a b c Ha Hb. unfold second_piece.
    rewrite split_at_sep by assumption. rewrite split_at_sep by assumption.
    reflexivity.
  - intros a b Ha Hb. unfold second_piece.
    rewrite split_at_sep by assumption. rewrite split_no_sep by assumption.
    reflexivity.
  - intros s Hs. unfold second_piece. rewrite split_no_sep by assumption.
    reflexivity.
  - intros to_datetime year t out H. apply scrape_table_ok in H.
    destruct H as [ps [weeks [peaks [_ [Hfst [_ [_ [_ Hout]]]]]]]].
    subst out.
    rewrite (proj1 (proj2 (assemble_rows _ _ _ _ _ _))).
    rewrite <- Hfst, !map_map. reflexivity.
Qed.

Lemma single_name_between_quotes_witness :
  second_piece (Str ([] ++ dquote :: py "Song A" ++ dquote :: py " performed by"))
  = Str (py "Song A") /\
  second_piece (Str (py "see " ++ dquote :: py "Song A")) = Str (py "Song A") /\
  second_piece (Str (py "Song A")) = NaN /\
  map Single_Name
      [ {| Top_Ten_Entry_Date := Sample.midnight 1999 1 6;
           Single_Name := Str (py "Song A");
           Artists := Str (py "Artist X");
           Peak := 3;
           Peak_Date := Sample.midnight 1999 1 20;
           Weeks_in_Top_Ten := 5;
           Ref := NaN;
           Year := Some 1999%Z |} ]
  = map (fun r => second_piece (nth 1 r NaN)) (data_rows Sample.page_1999).
Proof.
  assert (Q : forall s, forallb (fun c => negb (char_is dquote c)) s = true ->
                        no_quote s).
  { intros s H N. rewrite forallb_forall in H. specialize (H _ N).
    rewrite char_is_refl in H. discriminate. }
  destruct single_name_between_quotes as [H1 [H2 [H3 H4]]].
  split; [|split; [|split]].
  - apply H1; apply Q; reflexivity.
  - apply H2; apply Q; reflexivity.
  - apply H3; apply Q; reflexivity.
  - apply (H4 Sample.to_datetime 1999%Z Sample.page_1999). vm_compute. reflexivity.
Defined.

(** ** Peak and Weeks in Top Ten *)

Lemma span_digits_spec (s : text) :
  s = fst (span_digits s) ++ snd (span_digits s) /\
  forallb is_digit (fst (span_digits s)) = true /\
  (forall ch rest, snd (span_digits s) = ch :: rest -> is_digit ch = false).
Proof.
  induction s as [|c s IH]; simpl.
  - repeat split; intros; discriminate.
  - destruct (is_digit c) eqn:E.
    + destruct (span_digits s) as [d r]. simpl in *.
      destruct IH as [H1 [H2 H3]]. repeat split.
      * congruence.
      * rewrite E, H2. reflexivity.
      * exact H3.
    + simpl. repeat split. intros ch rest H. inversion H; subst. exact E.
Qed.

Lemma first_digit_run_some (s d : text) :
  first_digit_run s = Some d ->
  exists pre post,
    s = pre ++ d ++ post /\ no_digit pre /\ d <> [] /\
    forallb is_digit d = true /\
    (forall ch rest, post = ch :: rest -> is_digit ch = false).
Proof.
  induction s as [|c s IH]; simpl; [discriminate|].
  destruct (is_digit c) eqn:E.
  - intro H. inversion H; subst d. clear H.
    destruct (span_digits_spec s) as [H1 [H2 H3]].
    destruct (span_digits s) as [d r]. simpl in *.
    exists [], r. simpl. repeat split.
    + congruence.
    + intros x [].
    + discriminate.
    + rewrite E, H2. reflexivity.
    + exact H3.
  - intro H. destruct (IH H) as [pre [post [H1 [H2 [H3 [H4 H5]]]]]].
    exists (c :: pre), post. simpl. repeat split; try assumption.
    + congruence.
    + intros x [<-|Hx]; [exact E | apply H2; exact Hx].
Qed.


Lemma extract_int_ok (c : cell) (z : Z) :
  extract_int c = Ok z ->
  exists pre d post,
    astype_str c = pre ++ d ++ post /\ no_digit pre /\ d <> [] /\
    forallb is_digit d = true /\
    (forall ch rest, post = ch :: rest -> is_digit ch = false) /\
    z = digits_value 0 d.
Proof.
  unfold extract_int.
  destruct (first_digit_run (astype_str c)) as [d|] eqn:E; [|discriminate].
  destruct (first_digit_run_some _ E) as [pre [post [H1 [H2 [H3 [H4 H5]]]]]].
  rewrite (py_int_digits H3 H4).
  destruct (digits_value 0 d <=? int64_max)%Z; [|discriminate].
  intro H. inversion H; subst. exists pre, d, post. auto 10.
Qed.





Lemma assemble_numbers (ps : list (list cell * option Z))
      (eds pds : list (option Timestamp))
      (W K : list cell * option Z -> Z -> Prop) :
  forall (i : nat) (ws0 ks0 weeks peaks : list Z),
    length ws0 = i -> length ks0 = i ->
    Forall2 W ps weeks -> Forall2 K ps peaks ->
    Forall2 (fun p e => K p (Peak e) /\ W p (Weeks_in_Top_Ten e)) ps
            (assemble i (map name_columns ps) eds pds
                      (ws0 ++ weeks) (ks0 ++ peaks)).
Proof.
  induction ps as [|p ps IH]; intros i ws0 ks0 weeks peaks Lw Lk Hw Hk;
    simpl; [constructor|].
  inversion Hw as [|? w ? weeks' Hw1 Hw2]; subst.
  inversion Hk as [|? k ? peaks' Hk1 Hk2]; subst.
  constructor.
  - simpl. rewrite !app_nth2 by lia. rewrite Lk, !Nat.sub_diag. simpl. auto.
  - replace (ws0 ++ w :: weeks') with ((ws0 ++ [w]) ++ weeks')
      by (rewrite <- app_assoc; reflexivity).
    replace (ks0 ++ k :: peaks') with ((ks0 ++ [k]) ++ peaks')
      by (rewrite <- app_assoc; reflexivity).
    apply IH; try assumption; rewrite length_app; simpl; lia.
Qed.

Lemma scrape_url_page (web : text -> response)
      (to_datetime : list cell -> list (option Timestamp))
      (url : text) (t : RawTable) :
  web url = Page t ->
  snd (scrape_url web to_datetime url)
  = match py_int (last_chars 4 url) with
    | Some year => scrape_table to_datetime year t
    | None => Err ValueError
    end.
Proof.
  intro H. unfold scrape_url. simpl. rewrite H.
  destruct (py_int (last_chars 4 url)) as [year|]; [|reflexivity].
  simpl. destruct (scrape_table to_datetime year t); reflexivity.
Qed.


Lemma bind_ok {A B} (m : M A) (f : A -> M B) (tr : list event) (b : B) :
  bind m f = (tr, Ok b) ->
  exists t1 a t2, m = (t1, Ok a) /\ f a = (t2, Ok b) /\ tr = t1 ++ t2.
Proof.
  destruct m as [t1 [a|e]]; simpl; [|discriminate].
  destruct (f a) as [t2 r] eqn:E. intro H. inversion H; subst.
  exists t1, a, t2. auto.
Qed.




(** ** No marker in the Dataset *)

Lemma existsb_false {A} (f : A -> bool) (l : list A) :
  existsb f l = false <-> forall a, In a l -> f a = false.
Proof.
  induction l as [|x l IH]; simpl.
  - split; [intros _ a [] | reflexivity].
  - rewrite orb_false_iff, IH. split.
    + intros [Hx Hl] a [<-|Ha]; auto.
    + intro H. split; [apply H; left; reflexivity|].
      intros a Ha. apply H. right. exact Ha.
Qed.

Lemma contains_sentinel_needs_S (s : text) :
  ~ In "S"%char s -> contains_sentinel s = false.
Proof.
  intro H. destruct (contains_sentinel s) eqn:E; [|reflexivity].
  exfalso. apply H. unfold contains_sentinel in E.
  destruct (search sentinel_at s) as [u|] eqn:Eu; [|discriminate].
  apply search_some in Eu. destruct Eu as [Hu [pre Hpre]].
  unfold sentinel_at in Hu.
  destruct (strip_prefix _ u) as [r|] eqn:Er; [|discriminate].
  apply strip_prefix_some in Er. subst u s.
  apply in_or_app. right. left. reflexivity.
Qed.

Lemma text_of_uint_digits (u : Decimal.uint) :
  forallb is_digit (text_of_uint u) = true.
Proof. induction u; simpl; try rewrite IHu; reflexivity. Qed.

Lemma str_of_int_chars (z : Z) (c : ascii) :
  In c (str_of_int z) -> c = "-"%char \/ is_digit c = true.
Proof.
  destruct z as [|p|p]; simpl.
  - intros [<-|[]]. right. reflexivity.
  - intro H. right.
    pose proof (text_of_uint_digits (Pos.to_uint p)) as D.
    rewrite forallb_forall in D. apply D. exact H.
  - intros [<-|H]; [left; reflexivity|]. right.
    pose proof (text_of_uint_digits (Pos.to_uint p)) as D.
    rewrite forallb_forall in D. apply D. exact H.
Qed.

Lemma str_of_int_no_sentinel (z : Z) :
  contains_sentinel (str_of_int z) = false.
Proof.
  apply contains_sentinel_needs_S. intro H.
  apply str_of_int_chars in H. destruct H as [H|H]; discriminate.
Qed.

Lemma year_str_no_sentinel (y : option Z) :
  contains_sentinel (year_str y) = false.
Proof. destruct y; [apply str_of_int_no_sentinel | reflexivity]. Qed.

Lemma split_head (sep : ascii) (s q : text) (qs : list text) :
  split sep s = q :: qs -> exists b, s = q ++ b.
Proof.
  revert q qs. induction s as [|c s IH]; intros q qs; simpl.
  - intro H. inversion H; subst. exists []. reflexivity.
  - destruct (char_is sep c).
    + intro H. inversion H; subst. exists (c :: s). reflexivity.
    + destruct (split sep s) as [|q' qs'] eqn:E.
      * intro H. inversion H; subst. exists s. reflexivity.
      * intro H. inversion H; subst. destruct (IH _ _ eq_refl) as [b Hb].
        exists b. simpl. congruence.
Qed.

Lemma split_piece (sep : ascii) (s p : text) :
  In p (split sep s) -> exists a b, s = a ++ p ++ b.
Proof.
  revert p. induction s as [|c s IH]; intro p; simpl.
  - intros [<-|[]]. exists [], []. reflexivity.
  - destruct (char_is sep c).
    + intros [<-|H].
      * exists [], (c :: s). reflexivity.
      * destruct (IH p H) as [a [b Hab]]. exists (c :: a), b.
        simpl. congruence.
    + destruct (split sep s) as [|q qs] eqn:E.
      * intros [<-|[]]. exists [], s. reflexivity.
      * intros [<-|H].
        -- destruct (split_head sep s E) as [b Hb].
           exists [], b. simpl. congruence.
        -- destruct (IH p (or_intror H)) as [a [b Hab]].
           exists (c :: a), b. simpl. congruence.
Qed.

Lemma second_piece_no_sentinel (c : cell) :
  contains_sentinel (astype_str c) = false ->
  contains_sentinel (astype_str (second_piece c)) = false.
Proof.
  destruct c as [s| |]; simpl; try reflexivity.
  intro H. destruct (split dquote s) as [|x [|p ps]] eqn:E; try reflexivity.
  simpl. destruct (contains_sentinel p) eqn:Ep; [|reflexivity].
  destruct (@split_piece dquote s p) as [a [b Hab]].
  { rewrite E. right. left. reflexivity. }
  rewrite Hab, (contains_sentinel_inside a p b Ep) in H. discriminate.
Qed.

Lemma data_cell_no_sentinel (cells : list cell) (i : nat) :
  is_sentinel cells = false ->
  contains_sentinel (astype_str (nth i cells NaN)) = false.
Proof.
  intro H. unfold is_sentinel, row_texts in H.
  rewrite existsb_app, orb_false_iff in H. destruct H as [H _].
  destruct (nth_in_or_default i cells NaN) as [Hin | ->]; [|reflexivity].
  rewrite existsb_false in H. apply H. apply in_map. exact Hin.
Qed.

Lemma assemble_in (rs : list Row) (i : nat)
      (eds pds : list (option Timestamp)) (ws ps : list Z) (e : NormalizedEntry) :
  In e (assemble i rs eds pds ws ps) ->
  exists r, In r rs /\
            Single_Name e = second_piece (r_single_name r) /\
            Artists e = r_artists r /\ Ref e = r_ref r /\ Year e = r_year r.
Proof.
  revert i. induction rs as [|r rs IH]; intro i; simpl; [contradiction|].
  intros [<-|H].
  - exists r. simpl. auto 6.
  - destruct (IH _ H) as [r' [Hr' Hrest]]. exists r'. auto.
Qed.

Lemma data_rows_not_sentinel (t : RawTable) (r : list cell) :
  In r (data_rows t) -> is_sentinel r = false.
Proof.
  unfold data_rows. intro H. apply filter_In in H. destruct H as [_ H].
  apply negb_true_iff. exact H.
Qed.

Lemma frame_no_sentinel (to_datetime : list cell -> list (option Timestamp))
      (year : Z) (t : RawTable) (out : list NormalizedEntry) :
  scrape_table to_datetime year t = Ok out ->
  Forall (fun e => entry_is_sentinel e = false) out.
Proof.
  intro H. apply scrape_table_ok in H.
  destruct H as [ps [weeks [peaks [_ [Hfst [_ [_ [_ Hout]]]]]]]].
  apply Forall_forall. intros e He. subst out.
  apply assemble_in in He.
  destruct He as [r [Hr [Hs [Ha [Hf Hy]]]]].
  apply in_map_iff in Hr. destruct Hr as [p [<- Hp]].
  assert (N : is_sentinel (fst p) = false).
  { apply (@data_rows_not_sentinel t). rewrite <- Hfst. apply in_map. exact Hp. }
  unfold entry_is_sentinel, entry_texts. simpl.
  rewrite Hs, Ha, Hf. simpl.
  rewrite second_piece_no_sentinel by (apply data_cell_no_sentinel; exact N).
  rewrite !data_cell_no_sentinel by exact N.
  rewrite !str_of_int_no_sentinel, year_str_no_sentinel. reflexivity.
Qed.

(** ** The run over the URLs *)

Lemma scrape_url_ok (web : text -> response)
      (to_datetime : list cell -> list (option Timestamp))
      (url : text) (tr : list event) (df : list NormalizedEntry) :
  scrape_url web to_datetime url = (tr, Ok df) ->
  page_frame web to_datetime url df.
Proof.
  intro H. assert (S : snd (scrape_url web to_datetime url) = Ok df)
    by (rewrite H; reflexivity).
  unfold page_frame. destruct (web url) as [| | |t] eqn:E;
    try (unfold scrape_url in S; simpl in S; rewrite E in S;
         simpl in S; try destruct (py_int (last_chars 4 url));
         simpl in S; discriminate).
  rewrite (scrape_url_page web to_datetime url E) in S.
  destruct (py_int (last_chars 4 url)) as [year|]; [|discriminate].
  exists year, t. auto.
Qed.

Lemma scrape_url_complete (web : text -> response)
      (to_datetime : list cell -> list (option Timestamp))
      (url : text) (df : list NormalizedEntry) :
  page_frame web to_datetime url df ->
  scrape_url web to_datetime url
  = ([Print (py "Scraping URL: " ++ url); HttpGet url; Sleep], Ok df).
Proof.
  intros [year [t [Hw [Hy Ht]]]]. unfold scrape_url. simpl.
  rewrite Hw, Hy. simpl. rewrite Ht. reflexivity.
Qed.

Lemma scrape_all_ok (web : text -> response)
      (to_datetime : list cell -> list (option Timestamp))
      (urls : list text) :
  forall tr frames,
    scrape_all web to_datetime urls = (tr, Ok frames) ->
    Forall2 (page_frame web to_datetime) urls frames.
Proof.
  induction urls as [|u urls IH]; intros tr frames; simpl.
  - intro H. inversion H. constructor.
  - intro H. apply bind_ok in H.
    destruct H as [t1 [df [t2 [Hu [H _]]]]].
    apply bind_ok in H. destruct H as [t3 [dfs [t4 [Hall [H _]]]]].
    inversion H; subst. constructor.
    + eapply scrape_url_ok. exact Hu.
    + eapply IH. exact Hall.
Qed.

Lemma scrape_all_complete (web : text -> response)
      (to_datetime : list cell -> list (option Timestamp))
      (urls : list text) (frames : list (list NormalizedEntry)) :
  Forall2 (page_frame web to_datetime) urls frames ->
  exists tr, scrape_all web to_datetime urls = (tr, Ok frames).
Proof.
  induction 1 as [|u df urls frames Hu _ [tr IH]]; simpl.
  - eexists. reflexivity.
  - rewrite (scrape_url_complete Hu). simpl. rewrite IH. simpl.
    eexists. reflexivity.
Qed.

Lemma concat_all_nil {A} (frames : list (list A)) :
  Forall (fun f => f = []) frames -> concat frames = [].
Proof. induction 1; simpl; [reflexivity | subst; assumption]. Qed.

(** ** Years assigned by the sentinel rules *)



(** C6. No marker row is in the Dataset. The rows of a page that enter its
    frame are those the mask of line 89 rejects, in order, and each entry
    takes its texts from one of them; in the Dataset a run returns, no
    entry passes the test of marker rows. *)
Theorem no_sentinel_in_dataset :
  (forall (to_datetime : list cell -> list (option Timestamp)) year t out,
      scrape_table to_datetime year t = Ok out ->
      Forall (fun r => is_sentinel r = false) (data_rows t) /\
      length out = length (data_rows t) /\
      map Artists out = map (fun r => nth 2 r NaN) (data_rows t) /\
      map Ref out = map (fun r => nth 6 r NaN) (data_rows t) /\
      Forall (fun e => entry_is_sentinel e = false) out) /\
  (forall web (to_datetime : list cell -> list (option Timestamp))
          urls trace df,
      scrape_data web to_datetime urls = (trace, Ok df) ->
      Forall (fun e => entry_is_sentinel e = false) (entries df)).
Proof.
  split.
  - intros to_datetime year t out H.
    pose proof (frame_no_sentinel _ _ _ H) as F.
    apply scrape_table_ok in H.
    destruct H as [ps [weeks [peaks [_ [Hfst [_ [_ [_ Hout]]]]]]]].
    split; [|split; [|split; [|split]]].
    + apply Forall_forall. intros r Hr.
      apply (data_rows_not_sentinel _ _ Hr).
    + subst out. rewrite assemble_length, <- Hfst, !length_map. reflexivity.
    + subst out. rewrite (proj1 (proj2 (proj2 (assemble_rows _ _ _ _ _ _)))).
      rewrite <- Hfst, !map_map. reflexivity.
    + subst out. rewrite (proj2 (proj2 (proj2 (assemble_rows _ _ _ _ _ _)))).
      rewrite <- Hfst, !map_map. reflexivity.
    + exact F.
  - intros web to_datetime [urls|] trace df H; simpl in H; [|discriminate].
    apply bind_ok in H. destruct H as [t1 [frames [t2 [Hall [H _]]]]].
    apply scrape_all_ok in Hall. inversion H; subst. clear H.
    assert (C : Forall (fun e => entry_is_sentinel e = false) (concat frames)).
    { clear -Hall. induction Hall as [|u f urls frames Hu _ IH]; simpl.
      - constructor.
      - apply Forall_app. split; [|exact IH].
        destruct Hu as [year [t [_ [_ Ht]]]].
        eapply frame_no_sentinel. exact Ht. }
    destruct frames; [constructor | exact C].
Qed.

Lemma no_sentinel_in_dataset_witness :
  Forall (fun r => is_sentinel r = false) (data_rows Sample.page_2024) /\
  (exists df,
      snd (scrape_data Sample.web Sample.to_datetime
             (Some [Sample.url_2024; Sample.url_1999])) = Ok df /\
      length (entries df) = 4%nat /\
      Forall (fun e => entry_is_sentinel e = false) (entries df)).
Proof.
  destruct no_sentinel_in_dataset as [H1 H2]. split.
  - destruct (scrape_table Sample.to_datetime 2024 Sample.page_2024)
      as [out|e] eqn:E; [|vm_compute in E; discriminate].
    apply (H1 _ _ _ _ E).
  - destruct (scrape_data Sample.web Sample.to_datetime
                (Some [Sample.url_2024; Sample.url_1999]))
      as [trace [df|e]] eqn:E; [|vm_compute in E; discriminate].
    exists df. split; [reflexivity|]. split.
    + vm_compute in E. inversion E. reflexivity.
    + apply (H2 _ _ _ _ _ E).
Defined.

(** C7. The Dataset is the concatenation of the frames of the pages, in
    the order of the URLs and with each frame's rows in their order: when
    every page gives a frame the run returns that concatenation, and a
    Dataset that is returned is that concatenation. Nothing is sorted or
    merged. When every frame is empty the Dataset is empty. *)
Theorem dataset_is_concatenation
        (web : text -> response)
        (to_datetime : list cell -> list (option Timestamp))
        (urls : list text) :
  (forall frames,
      Forall2 (page_frame web to_datetime) urls frames ->
      exists trace df,
        scrape_data web to_datetime (Some urls) = (trace, Ok df) /\
        entries df = concat frames) /\
  (forall trace df,
      scrape_data web to_datetime (Some urls) = (trace, Ok df) ->
      exists frames,
        Forall2 (page_frame web to_datetime) urls frames /\
        entries df = concat frames /\
        (Forall (fun f => f = []) frames ->
         entries df = [] /\ df_empty df = true)).
Proof.
  split.
  - intros frames H. destruct (scrape_all_complete H) as [tr Htr].
    simpl. rewrite Htr. simpl. do 2 eexists. split; [reflexivity|].
    destruct frames; reflexivity.
  - intros trace df H. simpl in H. apply bind_ok in H.
    destruct H as [t1 [frames [t2 [Hall [H _]]]]].
    exists frames. split; [eapply scrape_all_ok; exact Hall|].
    inversion H; subst. clear H.
    assert (E : entries (match frames with
                         | [] => empty_frame
                         | _ :: _ => pd_concat frames
                         end) = concat frames) by (destruct frames; reflexivity).
    split; [exact E|]. intro N. rewrite E.
    pose proof (concat_all_nil N) as C. split; [exact C|].
    destruct frames; [reflexivity|]. unfold pd_concat. rewrite C. reflexivity.
Qed.

Lemma dataset_is_concatenation_witness :
  exists f2024 f1999 trace df,
    scrape_table Sample.to_datetime 2024 Sample.page_2024 = Ok f2024 /\
    scrape_table Sample.to_datetime 1999 Sample.page_1999 = Ok f1999 /\
    scrape_data Sample.web Sample.to_datetime
      (Some [Sample.url_2024; Sample.url_1999]) = (trace, Ok df) /\
    entries df = concat [f2024; f1999].
Proof.
  destruct (scrape_table Sample.to_datetime 2024 Sample.page_2024)
    as [f2024|e] eqn:E1; [|vm_compute in E1; discriminate].
  destruct (scrape_table Sample.to_datetime 1999 Sample.page_1999)
    as [f1999|e] eqn:E2; [|vm_compute in E2; discriminate].
  exists f2024, f1999.
  destruct (proj1 (dataset_is_concatenation Sample.web Sample.to_datetime
                     [Sample.url_2024; Sample.url_1999]) [f2024; f1999])
    as [trace [df [H1 H2]]].
  - constructor; [|constructor; [|constructor]].
    + exists 2024%Z, Sample.page_2024.
      split; [vm_compute; reflexivity|].
      split; [vm_compute; reflexivity | exact E1].
    + exists 1999%Z, Sample.page_1999.
      split; [vm_compute; reflexivity|].
      split; [vm_compute; reflexivity | exact E2].
  - exists trace, df. auto.
Defined.

(** ** Saving an empty Dataset *)

(** C9. On an empty Dataset, [pd.DataFrame()] or a frame without rows,
    [save_to_csv] prints the message that there is no data to save and
    returns: its trace holds no directory creation and no file write, so
    that the files are what they were. *)
Theorem save_to_csv_empty
        (now_stamp repo_root : text)
        (format_datetimes : list (option Timestamp) -> list text)
        (df : DataFrame) (filename : option text) :
  df_empty df = true ->
  save_to_csv now_stamp repo_root format_datetimes df filename
  = ([Print (py "No data to save.")], Ok tt) /\
  forall fs : files,
    run_events
      (fst (save_to_csv now_stamp repo_root format_datetimes df filename)) fs
    = fs.
Proof.
  intro H. unfold save_to_csv. rewrite H. split; reflexivity.
Qed.

Lemma save_to_csv_empty_witness :
  save_to_csv (py "2026_11") (py "/repo") Sample.format_datetimes
              empty_frame None
  = ([Print (py "No data to save.")], Ok tt) /\
  save_to_csv (py "2026_11") (py "/repo") Sample.format_datetimes
              (Dataset []) (Some (py "out.csv"))
  = ([Print (py "No data to save.")], Ok tt).
Proof.
  split.
  - apply (@save_to_csv_empty (py "2026_11") (py "/repo")
             Sample.format_datetimes empty_frame None). reflexivity.
  - apply (@save_to_csv_empty (py "2026_11") (py "/repo")
             Sample.format_datetimes (Dataset []) (Some (py "out.csv"))).
    reflexivity.
Defined.

(** ** Calling [scrape_data] without URLs *)



(** ** The tokenizer reads back what the writer wrote *)

Arguments char_is : simpl never.

Lemma needs_quoting_false (f : text) (c : ascii) :
  needs_quoting f = false -> In c f ->
  char_is ","%char c = false /\ char_is dquote c = false /\
  char_is newline c = false.
Proof.
  unfold needs_quoting. intros H Hin. rewrite existsb_false in H.
  specialize (H c Hin). rewrite !orb_false_iff in H. tauto.
Qed.

Lemma no_carriage_return (f : text) (c : ascii) :
  has_carriage_return f = false -> In c f ->
  char_is carriage_return c = false.
Proof.
  unfold has_carriage_return. intros H Hin. rewrite existsb_false in H.
  apply H. exact Hin.
Qed.

(** The characters of a field written without quotes, read inside a
    field. *)
Lemma read_plain_chars (f : text) :
  needs_quoting f = false -> has_carriage_return f = false ->
  forall fld rec ls,
    fold_left step f {| state := InField; field := fld; record := rec; lines := ls |}
    = {| state := InField; field := rev f ++ fld; record := rec; lines := ls |}.
Proof.
  induction f as [|c f IH]; intros Hq Hr fld rec ls; simpl; [reflexivity|].
  destruct (@needs_quoting_false (c :: f) c Hq (or_introl eq_refl))
    as [H1 [H2 H3]].
  pose proof (@no_carriage_return (c :: f) c Hr (or_introl eq_refl)) as H4.
  unfold step at 2. simpl. unfold step_in_field. rewrite H3, H4, H1.
  unfold set_state, push_char. simpl.
  rewrite IH.
  - rewrite <- app_assoc. reflexivity.
  - unfold needs_quoting in *. simpl in Hq. apply orb_false_iff in Hq. tauto.
  - unfold has_carriage_return in *. simpl in Hr. apply orb_false_iff in Hr. tauto.
Qed.

(** The same at the start of a line, where blanks are first held back. *)
Lemma read_plain_chars_blank (f : text) :
  needs_quoting f = false -> has_carriage_return f = false ->
  forall fld rec ls,
  exists st,
    (st = InField \/ st = WhitespaceLine) /\
    fold_left step f
      {| state := WhitespaceLine; field := fld; record := rec; lines := ls |}
    = {| state := st; field := rev f ++ fld; record := rec; lines := ls |}.
Proof.
  induction f as [|c f IH]; intros Hq Hr fld rec ls; simpl.
  - exists WhitespaceLine. auto.
  - destruct (@needs_quoting_false (c :: f) c Hq (or_introl eq_refl))
      as [H1 [H2 H3]].
    pose proof (@no_carriage_return (c :: f) c Hr (or_introl eq_refl)) as H4.
    assert (Hq' : needs_quoting f = false).
    { unfold needs_quoting in *. simpl in Hq. apply orb_false_iff in Hq. tauto. }
    assert (Hr' : has_carriage_return f = false).
    { unfold has_carriage_return in *. simpl in Hr.
      apply orb_false_iff in Hr. tauto. }
    unfold step at 2. simpl. rewrite H3, H4.
    destruct (is_blank c).
    + unfold push_char. simpl.
      destruct (IH Hq' Hr' (c :: fld) rec ls) as [st [Hst E]].
      exists st. split; [exact Hst|]. rewrite E, <- app_assoc. reflexivity.
    + unfold step_in_field. rewrite H3, H4, H1.
      unfold set_state, push_char. simpl.
      exists InField. split; [auto|].
      rewrite (read_plain_chars f Hq' Hr'), <- app_assoc. reflexivity.
Qed.

(** The characters of a quoted field, between its quotes. *)
Lemma step_in_quoted (c : ascii) fld rec ls :
  step {| state := InQuotedField; field := fld; record := rec; lines := ls |} c
  = if char_is dquote c
    then {| state := QuoteInQuotedField; field := fld; record := rec;
            lines := ls |}
    else {| state := InQuotedField; field := c :: fld; record := rec;
            lines := ls |}.
Proof. unfold step. simpl. destruct (char_is dquote c); reflexivity. Qed.

Lemma step_quote_after_quote fld rec ls :
  step {| state := QuoteInQuotedField; field := fld; record := rec;
          lines := ls |} dquote
  = {| state := InQuotedField; field := dquote :: fld; record := rec;
       lines := ls |}.
Proof. reflexivity. Qed.

Lemma read_quoted_chars (f : text) :
  forall fld rec ls,
    fold_left step (double_quotes f)
      {| state := InQuotedField; field := fld; record := rec; lines := ls |}
    = {| state := InQuotedField; field := rev f ++ fld; record := rec;
         lines := ls |}.
Proof.
  induction f as [|c f IH]; intros fld rec ls; simpl; [reflexivity|].
  destruct (char_is dquote c) eqn:E.
  - apply char_is_eq in E. subst c.
    cbn [fold_left]. rewrite step_in_quoted, char_is_refl.
    rewrite step_quote_after_quote, IH, <- app_assoc. reflexivity.
  - cbn [fold_left]. rewrite step_in_quoted, E, IH, <- app_assoc. reflexivity.
Qed.

Lemma step_after_closing_quote fld rec ls :
  step {| state := QuoteInQuotedField; field := fld; record := rec;
          lines := ls |} ","%char
  = {| state := StartField; field := []; record := rev fld :: rec; lines := ls |}
  /\
  step {| state := QuoteInQuotedField; field := fld; record := rec;
          lines := ls |} newline
  = {| state := StartRecord; field := []; record := [];
       lines := rev (rev fld :: rec) :: ls |}.
Proof. split; reflexivity. Qed.

Lemma step_ends_field fld rec ls :
  step {| state := InField; field := fld; record := rec; lines := ls |} ","%char
  = {| state := StartField; field := []; record := rev fld :: rec; lines := ls |}
  /\
  step {| state := WhitespaceLine; field := fld; record := rec; lines := ls |}
       ","%char
  = {| state := StartField; field := []; record := rev fld :: rec; lines := ls |}
  /\
  step {| state := InField; field := fld; record := rec; lines := ls |} newline
  = {| state := StartRecord; field := []; record := [];
       lines := rev (rev fld :: rec) :: ls |}.
Proof. repeat split; reflexivity. Qed.

Lemma step_opening_quote st rec ls :
  at_start st ->
  step {| state := st; field := []; record := rec; lines := ls |} dquote
  = {| state := InQuotedField; field := []; record := rec; lines := ls |}.
Proof. intros [-> | ->]; reflexivity. Qed.

Lemma step_empty_field st rec ls :
  at_start st ->
  step {| state := st; field := []; record := rec; lines := ls |} ","%char
  = {| state := StartField; field := []; record := [] :: rec; lines := ls |}.
Proof. intros [-> | ->]; reflexivity. Qed.

Lemma step_first_char (c : ascii) rec ls :
  char_is ","%char c = false -> char_is dquote c = false ->
  char_is newline c = false -> char_is carriage_return c = false ->
  step {| state := StartField; field := []; record := rec; lines := ls |} c
  = {| state := InField; field := [c]; record := rec; lines := ls |} /\
  step {| state := StartRecord; field := []; record := rec; lines := ls |} c
  = {| state := if is_blank c then WhitespaceLine else InField;
       field := [c]; record := rec; lines := ls |}.
Proof.
  intros H1 H2 H3 H4. unfold step. simpl.
  unfold step_start_record, step_start_field. rewrite H1, H2, H3, H4.
  destruct (is_blank c); split; reflexivity.
Qed.

Lemma plain_tail (c : ascii) (f : text) :
  needs_quoting (c :: f) = false -> has_carriage_return (c :: f) = false ->
  (char_is ","%char c = false /\ char_is dquote c = false /\
   char_is newline c = false /\ char_is carriage_return c = false) /\
  needs_quoting f = false /\ has_carriage_return f = false.
Proof.
  intros Hq Hr.
  destruct (@needs_quoting_false (c :: f) c Hq (or_introl eq_refl))
    as [H1 [H2 H3]].
  pose proof (@no_carriage_return (c :: f) c Hr (or_introl eq_refl)) as H4.
  unfold needs_quoting, has_carriage_return in *. simpl in Hq, Hr.
  apply orb_false_iff in Hq. apply orb_false_iff in Hr. tauto.
Qed.

(** A field written without quotes, from the start of a field or of a
    line: the tokenizer is inside the field, which it holds whole. *)
Lemma read_plain_field (c : ascii) (f : text) st rec ls :
  needs_quoting (c :: f) = false -> has_carriage_return (c :: f) = false ->
  at_start st ->
  exists st',
    (st' = InField \/ st' = WhitespaceLine) /\
    (st = StartField -> st' = InField) /\
    fold_left step (c :: f)
      {| state := st; field := []; record := rec; lines := ls |}
    = {| state := st'; field := rev (c :: f); record := rec; lines := ls |}.
Proof.
  intros Hq Hr Hst.
  destruct (plain_tail c f Hq Hr) as [[H1 [H2 [H3 H4]]] [Hq' Hr']].
  destruct (step_first_char c rec ls H1 H2 H3 H4) as [F1 F2].
  cbn [fold_left]. destruct Hst as [-> | ->].
  - rewrite F1, (read_plain_chars f Hq' Hr'). exists InField. auto.
  - rewrite F2. destruct (is_blank c).
    + destruct (read_plain_chars_blank f Hq' Hr' [c] rec ls) as [st' [Hs E]].
      exists st'. split; [exact Hs|]. split; [discriminate | exact E].
    + rewrite (read_plain_chars f Hq' Hr'). exists InField.
      split; [auto|]. split; [discriminate | reflexivity].
Qed.

(** A field and the comma after it, from the start of a field or of a
    line. *)
Lemma read_field_comma (f : text) :
  has_carriage_return f = false ->
  forall st rec ls,
    at_start st ->
    fold_left step (render_field f ++ [","%char])
      {| state := st; field := []; record := rec; lines := ls |}
    = {| state := StartField; field := []; record := f :: rec; lines := ls |}.
Proof.
  intros Hr st rec ls Hst. unfold render_field.
  destruct (needs_quoting f) eqn:Hq.
  - change (dquote :: double_quotes f ++ [dquote])
      with ([dquote] ++ double_quotes f ++ [dquote]).
    rewrite <- !app_assoc, fold_left_app. cbn [fold_left].
    rewrite (@step_opening_quote st rec ls Hst).
    rewrite fold_left_app, read_quoted_chars. cbn [fold_left app].
    rewrite step_in_quoted, char_is_refl.
    rewrite (proj1 (step_after_closing_quote _ _ _)).
    rewrite app_nil_r, rev_involutive. reflexivity.
  - rewrite fold_left_app.
    destruct f as [|c f].
    + cbn [fold_left]. apply step_empty_field. exact Hst.
    + destruct (@read_plain_field c f st rec ls Hq Hr Hst) as [st' [Hs [_ E]]].
      rewrite E. cbn [fold_left].
      destruct Hs as [-> | ->].
      * rewrite (proj1 (step_ends_field _ _ _)), rev_involutive. reflexivity.
      * rewrite (proj1 (proj2 (step_ends_field _ _ _))), rev_involutive.
        reflexivity.
Qed.

(** The last field of a line and the line feed after it. *)
Lemma read_field_newline (f : text) :
  has_carriage_return f = false ->
  forall rec ls,
    fold_left step (render_field f ++ [newline])
      {| state := StartField; field := []; record := rec; lines := ls |}
    = {| state := StartRecord; field := []; record := [];
         lines := rev (f :: rec) :: ls |}.
Proof.
  intros Hr rec ls. unfold render_field.
  destruct (needs_quoting f) eqn:Hq.
  - change (dquote :: double_quotes f ++ [dquote])
      with ([dquote] ++ double_quotes f ++ [dquote]).
    rewrite <- !app_assoc, fold_left_app. cbn [fold_left].
    rewrite (@step_opening_quote StartField rec ls (or_introl eq_refl)).
    rewrite fold_left_app, read_quoted_chars. cbn [fold_left app].
    rewrite step_in_quoted, char_is_refl.
    rewrite (proj2 (step_after_closing_quote _ _ _)).
    rewrite app_nil_r, rev_involutive. reflexivity.
  - rewrite fold_left_app.
    destruct f as [|c f]; [reflexivity|].
    destruct (@read_plain_field c f StartField rec ls Hq Hr (or_introl eq_refl))
      as [st' [_ [Hs E]]].
    rewrite E, (Hs eq_refl). cbn [fold_left].
    rewrite (proj2 (proj2 (step_ends_field _ _ _))), rev_involutive.
    reflexivity.
Qed.

Lemma read_fields (fs : list text) :
  fs <> [] ->
  Forall (fun f => has_carriage_return f = false) fs ->
  forall rec ls,
    fold_left step (join [","%char] (map render_field fs) ++ [newline])
      {| state := StartField; field := []; record := rec; lines := ls |}
    = {| state := StartRecord; field := []; record := [];
         lines := rev (rev fs ++ rec) :: ls |}.
Proof.
  induction fs as [|f fs IH]; intros Hne Hcr rec ls; [congruence|].
  inversion Hcr as [|? ? Hf Hfs]; subst.
  destruct fs as [|g fs].
  - simpl join. apply read_field_newline. exact Hf.
  - change (join [","%char] (map render_field (f :: g :: fs)))
      with (render_field f ++ [","%char]
            ++ join [","%char] (map render_field (g :: fs))).
    rewrite <- !app_assoc.
    replace (render_field f
             ++ [","%char] ++ join [","%char] (map render_field (g :: fs))
             ++ [newline])
      with ((render_field f ++ [","%char])
            ++ (join [","%char] (map render_field (g :: fs)) ++ [newline]))
      by (rewrite <- !app_assoc; reflexivity).
    rewrite fold_left_app.
    rewrite (@read_field_comma f Hf StartField rec ls (or_introl eq_refl)).
    rewrite IH by (assumption || discriminate).
    f_equal. f_equal. f_equal.
    change (rev (f :: g :: fs)) with (rev (g :: fs) ++ [f]).
    rewrite <- app_assoc. reflexivity.
Qed.

(** A line of two fields or more. *)
Lemma read_record (f : text) (fs : list text) :
  fs <> [] ->
  Forall (fun f => has_carriage_return f = false) (f :: fs) ->
  forall ls,
    fold_left step (render_record (f :: fs))
      {| state := StartRecord; field := []; record := []; lines := ls |}
    = {| state := StartRecord; field := []; record := [];
         lines := (f :: fs) :: ls |}.
Proof.
  intros Hne Hcr ls. inversion Hcr as [|? ? Hf Hfs]; subst.
  unfold render_record. destruct fs as [|g fs]; [congruence|].
  change (join [","%char] (map render_field (f :: g :: fs)))
    with (render_field f ++ [","%char]
          ++ join [","%char] (map render_field (g :: fs))).
  replace ((render_field f
            ++ [","%char] ++ join [","%char] (map render_field (g :: fs)))
           ++ [newline])
    with ((render_field f ++ [","%char])
          ++ (join [","%char] (map render_field (g :: fs)) ++ [newline]))
    by (rewrite <- !app_assoc; reflexivity).
  rewrite fold_left_app.
  rewrite (@read_field_comma f Hf StartRecord [] ls (or_intror eq_refl)).
  rewrite read_fields by (assumption || discriminate).
  f_equal. f_equal.
  rewrite rev_app_distr, rev_involutive. reflexivity.
Qed.

Lemma read_records (recs : list (list text)) :
  Forall readable_record recs ->
  forall ls,
    fold_left step (concat (map render_record recs))
      {| state := StartRecord; field := []; record := []; lines := ls |}
    = {| state := StartRecord; field := []; record := [];
         lines := rev recs ++ ls |}.
Proof.
  induction 1 as [|r recs [Hlen Hcr] _ IH]; intro ls; [reflexivity|].
  simpl concat. rewrite fold_left_app.
  destruct r as [|f [|g fs]]; simpl in Hlen; try lia.
  rewrite read_record by (assumption || discriminate).
  rewrite IH. simpl. rewrite <- app_assoc. reflexivity.
Qed.

(** What the writer wrote is tokenized into the records written. *)
Lemma tokenize_rendered (recs : list (list text)) :
  Forall readable_record recs ->
  tokenize (concat (map render_record recs)) = Ok recs.
Proof.
  intro H. unfold tokenize. rewrite (read_records H).
  unfold finish. simpl. rewrite app_nil_r, rev_involutive. reflexivity.
Qed.

(** ** Integers written and read back *)

Lemma of_uint_acc_value (d : Decimal.uint) :
  forall acc,
    Zpos (Pos.of_uint_acc d acc) = digits_value (Zpos acc) (text_of_uint d).
Proof.
  assert (V : forall n, (n <= 9)%nat -> digit_val (digit_char n) = Z.of_nat n).
  { intros n Hn. do 10 (destruct n as [|n]; [reflexivity|]). lia. }
  induction d; intro acc; cbn [Pos.of_uint_acc text_of_uint digits_value];
    try reflexivity; rewrite IHd; f_equal; rewrite V by lia; lia.
Qed.

Lemma of_uint_value (d : Decimal.uint) :
  Z.of_N (Pos.of_uint d) = digits_value 0 (text_of_uint d).
Proof.
  induction d; cbn [Pos.of_uint text_of_uint digits_value];
    try reflexivity; try exact IHd;
    cbn [Z.of_N]; rewrite of_uint_acc_value; reflexivity.
Qed.

Lemma digits_value_to_uint (p : positive) :
  digits_value 0 (text_of_uint (Pos.to_uint p)) = Zpos p.
Proof.
  rewrite <- of_uint_value, DecimalPos.Unsigned.of_to. reflexivity.
Qed.

Lemma text_of_uint_to_uint (p : positive) :
  exists c t, text_of_uint (Pos.to_uint p) = c :: t /\ is_digit c = true /\
              forallb is_digit t = true.
Proof.
  pose proof (digits_value_to_uint p) as V.
  pose proof (text_of_uint_digits (Pos.to_uint p)) as D.
  destruct (text_of_uint (Pos.to_uint p)) as [|c t]; [discriminate|].
  simpl in D. apply andb_true_iff in D. exists c, t. tauto.
Qed.


(** A text made of digits and minus signs is none of the fields read as
    missing, and holds no carriage return. *)
Lemma number_text_not_na (s : text) :
  s <> [] ->
  (forall c, In c s -> c = "-"%char \/ is_digit c = true) ->
  is_na s = false /\ has_carriage_return s = false.
Proof.
  intros Hne Hs. split.
  - destruct (is_na s) eqn:E; [|reflexivity]. exfalso.
    unfold is_na in E. apply existsb_exists in E.
    destruct E as [t [Hin Ht]]. apply text_eqb_eq in Ht. subst t.
    assert (P : forallb (fun c => char_is "-"%char c || is_digit c) s = true).
    { apply forallb_forall. intros c Hc. destruct (Hs c Hc) as [-> | D].
      - reflexivity.
      - rewrite D. apply orb_true_r. }
    unfold na_values in Hin. simpl in Hin.
    repeat (destruct Hin as [<- | Hin]; [first [congruence | discriminate P]|]).
    contradiction.
  - unfold has_carriage_return. apply existsb_false. intros c Hc.
    destruct (Hs c Hc) as [-> | D]; [reflexivity|].
    apply digit_not_char; [reflexivity | exact D].
Qed.

Lemma str_of_int_not_nil (z : Z) : str_of_int z <> [].
Proof.
  destruct z as [|p|p]; simpl; try discriminate.
  destruct (text_of_uint_to_uint p) as [c [t [E _]]]. rewrite E. discriminate.
Qed.

Lemma str_of_int_field (z : Z) :
  read_field (str_of_int z) = Str (str_of_int z) /\
  has_carriage_return (str_of_int z) = false.
Proof.
  destruct (@number_text_not_na (str_of_int z) (str_of_int_not_nil z)
              (str_of_int_chars z)) as [N C].
  unfold read_field. rewrite N. auto.
Qed.

(** ** The columns of the file written *)


Lemma csv_rows_columns (es : list NormalizedEntry) (eds pds : list text) :
  forall i,
    let rs := csv_rows i es eds pds in
    map (fun r => nth 0 r []) rs = map (fun k => nth k eds []) (seq i (length es)) /\
    map (fun r => nth 1 r []) rs = map (fun e => cell_field (Single_Name e)) es /\
    map (fun r => nth 2 r []) rs = map (fun e => cell_field (Artists e)) es /\
    map (fun r => nth 3 r []) rs = map (fun e => str_of_int (Peak e)) es /\
    map (fun r => nth 4 r []) rs = map (fun k => nth k pds []) (seq i (length es)) /\
    map (fun r => nth 5 r []) rs = map (fun e => str_of_int (Weeks_in_Top_Ten e)) es /\
    map (fun r => nth 6 r []) rs = map (fun e => cell_field (Ref e)) es /\
    map (fun r => nth 7 r []) rs = map (fun e => year_field (Year e)) es /\
    Forall (fun r => length r = 8%nat) rs.
Proof.
  induction es as [|e es IH]; intro i; simpl.
  - repeat split. constructor.
  - destruct (IH (S i)) as [H0 [H1 [H2 [H3 [H4 [H5 [H6 [H7 H8]]]]]]]].
    simpl in *. rewrite H0, H1, H2, H3, H4, H5, H6, H7.
    repeat split. constructor; [reflexivity | exact H8].
Qed.


Lemma year_field_no_cr (y : option Z) :
  has_carriage_return (year_field y) = false.
Proof. destruct y; [apply str_of_int_field | reflexivity]. Qed.

Lemma nth_no_cr (l : list text) (i : nat) :
  Forall (fun f => has_carriage_return f = false) l ->
  has_carriage_return (nth i l []) = false.
Proof.
  intro H. destruct (nth_in_or_default i l []) as [Hin | ->]; [|reflexivity].
  rewrite Forall_forall in H. apply H. exact Hin.
Qed.



(** ** Columns as the consumer reads them *)

Section ReadingColumns.

Variable read_datetimes : list cell -> list (option Timestamp).
Variable is_float : text -> bool.







End ReadingColumns.

Lemma header_readable : readable_record column_names.
Proof. split; [simpl; lia | repeat constructor]. Qed.





(** ** Writing a Dataset and reading it back *)



Lemma write_then_read (path content : text) (fs : files) :
  write_file path content fs path = Some content.
Proof. unfold write_file. rewrite text_eqb_refl. reflexivity. Qed.




(** * Further properties of the scraper *)

(** ** Top Ten Entry Date *)

(** X1. [Top Ten Entry Date] is what [pd.to_datetime] reads in the cleaned
    raw cell followed by the row's own [Year] as text, not by the year of
    the URL; for a row left without year the text appended is [<NA>]. *)
Theorem entry_date_uses_row_year
        (to_datetime : list cell -> list (option Timestamp))
        (year : Z) (t : RawTable) (out : list NormalizedEntry) :
  scrape_table to_datetime year t = Ok out ->
  exists ps,
    resolve_years year (rows (add_ref t)) = Ok ps /\
    length out = length ps /\
    map Year out = map snd ps /\
    (forall i, (i < length ps)%nat ->
       option_map Top_Ten_Entry_Date (nth_error out i)
       = Some (nth i (to_datetime (map entry_date_of ps)) None)) /\
    (forall p, In p ps -> snd p = None ->
       exists s, entry_date_of p = Str (s ++ py " <NA>")).
Proof.
  intro H. apply scrape_table_ok in H.
  destruct H as [ps [weeks [peaks [Hps [Hfst [Hn [Hw [Hp Hout]]]]]]]].
  exists ps. split; [exact Hps|]. split; [|split; [|split]].
  - subst out. rewrite assemble_length, length_map. reflexivity.
  - subst out. rewrite (proj1 (assemble_rows _ _ _ _ _ _)).
    rewrite map_map. reflexivity.
  - intros i Hi. subst out.
    destruct (@assemble_nth (map name_columns ps) 0 i
                (to_datetime (map entry_date_text (map name_columns ps)))
                (to_datetime (map (peak_date_text year) (map name_columns ps)))
                weeks peaks) as [e [He [Hed _]]].
    { rewrite length_map. exact Hi. }
    rewrite He. simpl. rewrite Hed. simpl. rewrite map_map. reflexivity.
  - intros p _ Hy. unfold entry_date_of. rewrite Hy. simpl.
    eexists. reflexivity.
Qed.

Lemma entry_date_uses_row_year_witness :
  exists out ps,
    scrape_table Sample.to_datetime 2024 Sample.page_2024 = Ok out /\
    resolve_years 2024 (rows (add_ref Sample.page_2024)) = Ok ps /\
    option_map Top_Ten_Entry_Date (nth_error out 1)
    = Some (Sample.midnight 2023 12 16).
Proof.
  destruct (scrape_table Sample.to_datetime 2024 Sample.page_2024)
    as [out|e] eqn:E; [|vm_compute in E; discriminate].
  destruct (entry_date_uses_row_year _ _ _ E) as [ps [Hps [L [_ [P _]]]]].
  exists out, ps. split; [reflexivity|]. split; [exact Hps|].
  vm_compute in Hps. inversion Hps; subst ps. clear Hps.
  rewrite (P 1%nat); [vm_compute; reflexivity | vm_compute; lia].
Defined.

(** ** The columns of the page *)

Lemma nth_added_ref (r : list cell) :
  length r = 6%nat -> nth 6 (r ++ [PyNone]) NaN = PyNone.
Proof.
  intro H. rewrite app_nth2 by lia. rewrite H. reflexivity.
Qed.

(** X2. On a page whose table has six columns, every entry of the frame
    has [Ref] equal to [None]: the column is created by the code, the page
    gives nothing for it. *)
Theorem six_columns_ref_is_none
        (to_datetime : list cell -> list (option Timestamp))
        (year : Z) (t : RawTable) (out : list NormalizedEntry) :
  ncols t = 6%nat ->
  Forall (fun r => length r = 6%nat) (rows t) ->
  scrape_table to_datetime year t = Ok out ->
  Forall (fun e => Ref e = PyNone) out.
Proof.
  intros Hn Hlen H. apply scrape_table_ok in H.
  destruct H as [ps [weeks [peaks [_ [Hfst [_ [_ [_ Hout]]]]]]]].
  apply Forall_forall. intros e He. subst out. apply assemble_in in He.
  destruct He as [r [Hr [_ [_ [Hf _]]]]].
  apply in_map_iff in Hr. destruct Hr as [p [<- Hp]].
  rewrite Hf. simpl.
  assert (D : In (fst p) (data_rows t)) by (rewrite <- Hfst; apply in_map; exact Hp).
  unfold data_rows, add_ref in D. rewrite Hn in D. simpl in D.
  apply filter_In in D. destruct D as [D _].
  apply in_map_iff in D. destruct D as [r [<- Hr]].
  rewrite Forall_forall in Hlen. apply nth_added_ref. apply Hlen. exact Hr.
Qed.

Lemma six_columns_ref_is_none_witness :
  exists out,
    scrape_table Sample.to_datetime 1999
      {| ncols := 6; rows := [firstn 6 Sample.song_a] |} = Ok out /\
    Forall (fun e => Ref e = PyNone) out.
Proof.
  destruct (scrape_table Sample.to_datetime 1999
              {| ncols := 6; rows := [firstn 6 Sample.song_a] |})
    as [out|e] eqn:E; [|vm_compute in E; discriminate].
  exists out. split; [reflexivity|].
  apply (@six_columns_ref_is_none Sample.to_datetime 1999
           {| ncols := 6; rows := [firstn 6 Sample.song_a] |} out).
  - reflexivity.
  - repeat constructor.
  - exact E.
Defined.



(** ** Bounds on the numbers *)

Lemma digits_value_bounds (d : text) :
  forallb is_digit d = true ->
  forall acc, (0 <= acc)%Z -> (0 <= digits_value acc d)%Z.
Proof.
  induction d as [|c d IH]; intros Hd acc Hacc; cbn [digits_value];
    [exact Hacc|].
  simpl in Hd. apply andb_true_iff in Hd. destruct Hd as [Hc Hd].
  apply IH; [exact Hd|].
  unfold is_digit in Hc. apply andb_true_iff in Hc. destruct Hc as [Hc _].
  apply Nat.leb_le in Hc. unfold digit_val. lia.
Qed.

Lemma extract_int_bounds (c : cell) (z : Z) :
  extract_int c = Ok z -> (0 <= z <= int64_max)%Z.
Proof.
  intro H. pose proof H as H'. apply extract_int_ok in H.
  destruct H as [pre [d [post [_ [_ [Hne [Hd [_ Hz]]]]]]]].
  split.
  - subst z. apply digits_value_bounds; [exact Hd | lia].
  - unfold extract_int in H'.
    destruct (first_digit_run (astype_str c)); [|discriminate].
    destruct (py_int t); [|discriminate].
    destruct (z0 <=? int64_max)%Z eqn:E; [|discriminate].
    inversion H'; subst. apply Z.leb_le. exact E.
Qed.

(** X4. In every frame, [Peak] and [Weeks in Top Ten] are integers between
    0 and 2^63 - 1: a sign before the digits is not read, and a larger run
    of digits raises. *)
Theorem numbers_within_int64
        (to_datetime : list cell -> list (option Timestamp))
        (year : Z) (t : RawTable) (out : list NormalizedEntry) :
  scrape_table to_datetime year t = Ok out ->
  Forall (fun e => (0 <= Peak e <= int64_max)%Z /\
                   (0 <= Weeks_in_Top_Ten e <= int64_max)%Z) out.
Proof.
  intro H. apply scrape_table_ok in H.
  destruct H as [ps [weeks [peaks [_ [_ [_ [Hw [Hp Hout]]]]]]]].
  subst out.
  pose proof (@assemble_numbers ps
                (to_datetime (map entry_date_text (map name_columns ps)))
                (to_datetime (map (peak_date_text year) (map name_columns ps)))
                (fun p w => extract_int (nth 5 (fst p) NaN) = Ok w)
                (fun p k => extract_int (nth 3 (fst p) NaN) = Ok k)
                0%nat [] [] weeks peaks eq_refl eq_refl Hw Hp) as F.
  simpl in F. clear -F.
  induction F as [|p e ps out [Hk Hw] _ IH]; constructor; [|exact IH].
  split; eapply extract_int_bounds; eassumption.
Qed.

Lemma numbers_within_int64_witness :
  exists out,
    scrape_table Sample.to_datetime 2024 Sample.page_2024 = Ok out /\
    Forall (fun e => (0 <= Peak e <= int64_max)%Z /\
                     (0 <= Weeks_in_Top_Ten e <= int64_max)%Z) out.
Proof.
  destruct (scrape_table Sample.to_datetime 2024 Sample.page_2024)
    as [out|e] eqn:E; [|vm_compute in E; discriminate].
  exists out. split; [reflexivity|].
  exact (numbers_within_int64 _ _ _ E).
Defined.

(** * Properties of the discovery and of the whole program *)

(** ** Traces *)

Lemma bind_fst {A B} (m : M A) (f : A -> M B) :
  fst (bind m f) = fst m ++ match snd m with
                            | Ok a => fst (f a)
                            | Err _ => []
                            end.
Proof.
  destruct m as [t [a|e]]; simpl.
  - destruct (f a). reflexivity.
  - rewrite app_nil_r. reflexivity.
Qed.


(** A page that raises leaves its message and its fetch, no sleep. *)
Lemma scrape_url_trace (web : text -> response)
      (to_datetime : list cell -> list (option Timestamp)) (url : text) :
  fst (scrape_url web to_datetime url)
  = match snd (scrape_url web to_datetime url) with
    | Ok _ => page_events url
    | Err _ => [Print (py "Scraping URL: " ++ url); HttpGet url]
    end.
Proof.
  unfold scrape_url, page_events. simpl.
  destruct (web url) as [| | |t]; try reflexivity;
    destruct (py_int (last_chars 4 url)) as [year|]; try reflexivity.
  simpl. destruct (scrape_table to_datetime year t); reflexivity.
Qed.

Lemma scrape_all_trace_ok (web : text -> response)
      (to_datetime : list cell -> list (option Timestamp))
      (urls : list text) (frames : list (list NormalizedEntry)) :
  Forall2 (page_frame web to_datetime) urls frames ->
  scrape_all web to_datetime urls = (flat_map page_events urls, Ok frames).
Proof.
  induction 1 as [|u df urls frames Hu _ IH]; [reflexivity|].
  simpl scrape_all. rewrite (scrape_url_complete Hu). simpl.
  rewrite IH. simpl. rewrite ?app_nil_r. reflexivity.
Qed.

Lemma scrape_all_trace_fail (web : text -> response)
      (to_datetime : list cell -> list (option Timestamp))
      (pre post : list text) (u : text)
      (frames : list (list NormalizedEntry)) (e : error) :
  Forall2 (page_frame web to_datetime) pre frames ->
  snd (scrape_url web to_datetime u) = Err e ->
  scrape_all web to_datetime (pre ++ u :: post)
  = (flat_map page_events pre
     ++ [Print (py "Scraping URL: " ++ u); HttpGet u], Err e).
Proof.
  intros Hpre Hu. induction Hpre as [|v df pre frames Hv _ IH].
  - simpl app. simpl scrape_all.
    pose proof (scrape_url_trace web to_datetime u) as T. rewrite Hu in T.
    destruct (scrape_url web to_datetime u) as [tr r]. simpl in *.
    subst tr r. reflexivity.
  - simpl app. simpl scrape_all. rewrite (scrape_url_complete Hv). simpl.
    rewrite IH. simpl. reflexivity.
Qed.

(** X5. A run in which every page gives a frame prints, fetches and then
    sleeps once for each URL, in the order of the list: every URL is
    fetched exactly once, and the run sleeps after the last page too. *)
Theorem successful_run_trace
        (web : text -> response)
        (to_datetime : list cell -> list (option Timestamp))
        (urls : list text) (frames : list (list NormalizedEntry)) :
  Forall2 (page_frame web to_datetime) urls frames ->
  fst (scrape_data web to_datetime (Some urls)) = flat_map page_events urls /\
  fetched (fst (scrape_data web to_datetime (Some urls))) = urls.
Proof.
  intro H. simpl. rewrite (scrape_all_trace_ok H). simpl.
  rewrite app_nil_r. split; [reflexivity|].
  clear. induction urls as [|u urls IH]; [reflexivity|].
  simpl. f_equal. exact IH.
Qed.

Lemma successful_run_trace_witness :
  fetched (fst (scrape_data Sample.web Sample.to_datetime
                  (Some [Sample.url_2024; Sample.url_1999])))
  = [Sample.url_2024; Sample.url_1999].
Proof.
  destruct (scrape_table Sample.to_datetime 2024 Sample.page_2024)
    as [f2024|e] eqn:E1; [|vm_compute in E1; discriminate].
  destruct (scrape_table Sample.to_datetime 1999 Sample.page_1999)
    as [f1999|e] eqn:E2; [|vm_compute in E2; discriminate].
  apply (proj2 (@successful_run_trace Sample.web Sample.to_datetime
                  [Sample.url_2024; Sample.url_1999] [f2024; f1999]
                  ltac:(constructor; [|constructor; [|constructor]];
                        [exists 2024%Z, Sample.page_2024
                        |exists 1999%Z, Sample.page_1999];
                        (split; [vm_compute; reflexivity|]);
                        (split; [vm_compute; reflexivity | assumption])))).
Defined.

(** X6. The run stops at the first page that raises: the pages before it
    have been processed in full, the failing page has been announced and
    fetched, no sleep follows, none of the later URLs is fetched, and the
    exception of that page is the one that leaves [scrape_data]. *)
Theorem run_stops_at_first_failure
        (web : text -> response)
        (to_datetime : list cell -> list (option Timestamp))
        (pre post : list text) (u : text)
        (frames : list (list NormalizedEntry)) (e : error) :
  Forall2 (page_frame web to_datetime) pre frames ->
  snd (scrape_url web to_datetime u) = Err e ->
  scrape_data web to_datetime (Some (pre ++ u :: post))
  = (flat_map page_events pre
     ++ [Print (py "Scraping URL: " ++ u); HttpGet u], Err e) /\
  fetched (fst (scrape_data web to_datetime (Some (pre ++ u :: post))))
  = pre ++ [u].
Proof.
  intros Hpre Hu.
  assert (E : scrape_data web to_datetime (Some (pre ++ u :: post))
              = (flat_map page_events pre
                 ++ [Print (py "Scraping URL: " ++ u); HttpGet u], Err e)).
  { simpl. rewrite (@scrape_all_trace_fail web to_datetime pre post u frames e
                      Hpre Hu). reflexivity. }
  split; [exact E|]. rewrite E. simpl. clear.
  induction pre as [|v pre IH]; [reflexivity|]. simpl. f_equal. exact IH.
Qed.

Lemma run_stops_at_first_failure_witness :
  fetched (fst (scrape_data Sample.web Sample.to_datetime
                  (Some ([Sample.url_1999] ++ Sample.url_2010
                         :: [Sample.url_2024]))))
  = [Sample.url_1999] ++ [Sample.url_2010].
Proof.
  destruct (scrape_table Sample.to_datetime 1999 Sample.page_1999)
    as [f1999|e] eqn:E2; [|vm_compute in E2; discriminate].
  apply (proj2 (@run_stops_at_first_failure Sample.web Sample.to_datetime
                  [Sample.url_1999] [Sample.url_2024] Sample.url_2010
                  [f1999] ValueError
                  ltac:(constructor; [|constructor];
                        exists 1999%Z, Sample.page_1999;
                        (split; [vm_compute; reflexivity|]);
                        (split; [vm_compute; reflexivity | assumption]))
                  ltac:(vm_compute; reflexivity))).
Defined.

(** ** The links of the index page *)

Lemma starts_with_prefix (p s : text) :
  starts_with p s = true <-> exists rest, s = p ++ rest.
Proof.
  unfold starts_with. split.
  - destruct (strip_prefix p s) as [r|] eqn:E; [|discriminate].
    intros _. exists r. apply strip_prefix_some. exact E.
  - intros [rest ->].
    assert (E : strip_prefix p (p ++ rest) = Some rest).
    { induction p as [|a p IH]; simpl; [reflexivity|].
      rewrite char_is_refl. exact IH. }
    rewrite E. reflexivity.
Qed.

(** X7. [get_links] fetches the index page once. When the fetch fails it
    raises and returns nothing. Otherwise it returns, each once, the
    addresses made of the site and of an [href] of the page that starts
    with the prefix of the lists of a year, and only those: a page linked
    twice is listed once, a link to anything else is left out. *)
Theorem get_links_lists_each_page_once
        (index_links : text -> option (list text))
        (list_of_set : list text -> list text) (url : text) :
  set_listing list_of_set ->
  (index_links url = None ->
   get_links index_links list_of_set url = ([HttpGet url], Err HTTPError)) /\
  (forall hrefs,
      index_links url = Some hrefs ->
      exists links,
        get_links index_links list_of_set url = ([HttpGet url], Ok links) /\
        NoDup links /\
        (forall u, In u links <->
                   exists href, In href hrefs /\
                                starts_with link_prefix href = true /\
                                u = site ++ href) /\
        (forall u, In u links ->
                   exists rest, u = site ++ link_prefix ++ rest)).
Proof.
  intro Hset. split.
  - intro H. unfold get_links. simpl. rewrite H. reflexivity.
  - intros hrefs H. unfold get_links. simpl. rewrite H. simpl.
    eexists. split; [reflexivity|].
    destruct (Hset (map (fun href => site ++ href)
                        (filter (starts_with link_prefix) hrefs)))
      as [Hnd Hin].
    assert (C : forall u,
               In u (list_of_set
                       (map (fun href => site ++ href)
                            (filter (starts_with link_prefix) hrefs))) <->
               exists href, In href hrefs /\
                            starts_with link_prefix href = true /\
                            u = site ++ href).
    { intro u. rewrite Hin, in_map_iff. split.
      - intros [href [<- Hf]]. apply filter_In in Hf. exists href. tauto.
      - intros [href [H1 [H2 ->]]]. exists href.
        split; [reflexivity|]. apply filter_In. tauto. }
    split; [exact Hnd|]. split; [exact C|].
    intros u Hu. apply C in Hu. destruct Hu as [href [_ [Hp ->]]].
    apply starts_with_prefix in Hp. destruct Hp as [rest ->].
    exists rest. reflexivity.
Qed.

Lemma nodup_set_listing : set_listing DiscoverySample.list_of_set.
Proof.
  intro l. unfold DiscoverySample.list_of_set. split.
  - apply NoDup_nodup.
  - intro x. apply nodup_In.
Qed.

Lemma get_links_lists_each_page_once_witness :
  exists links,
    get_links DiscoverySample.index_links DiscoverySample.list_of_set BASE_URL
    = ([HttpGet BASE_URL], Ok links) /\
    NoDup links /\
    (In Sample.url_1999 links <->
     exists href, In href DiscoverySample.hrefs /\
                  starts_with link_prefix href = true /\
                  Sample.url_1999 = site ++ href).
Proof.
  destruct (proj2 (@get_links_lists_each_page_once
                     DiscoverySample.index_links DiscoverySample.list_of_set
                     BASE_URL nodup_set_listing)
              DiscoverySample.hrefs eq_refl) as [links [H1 [H2 [H3 _]]]].
  exists links. split; [exact H1|]. split; [exact H2|]. apply H3.
Defined.

(** ** The whole program *)




Lemma save_to_csv_events
      (now_stamp repo_root : text)
      (format_datetimes : list (option Timestamp) -> list text)
      (df : DataFrame) :
  save_to_csv now_stamp repo_root format_datetimes df None
  = if df_empty df
    then ([Print (py "No data to save.")], Ok tt)
    else ([MakeDirs (path_join repo_root (py "data"));
           WriteFile (default_path now_stamp repo_root)
                     (to_csv format_datetimes (entries df));
           Print (py "Data saved to " ++ default_path now_stamp repo_root)],
          Ok tt).
Proof. unfold save_to_csv. destruct (df_empty df); reflexivity. Qed.



(** X9. When the index page holds no link to a list of a year, [main]
    fetches that page only, prints that there is no data to save and
    returns: no page is scraped and no file is written. *)
Theorem main_without_links
        (index_links : text -> option (list text))
        (list_of_set : list text -> list text)
        (web : text -> response)
        (to_datetime : list cell -> list (option Timestamp))
        (now_stamp repo_root : text)
        (format_datetimes : list (option Timestamp) -> list text)
        (hrefs : list text) :
  set_listing list_of_set ->
  index_links BASE_URL = Some hrefs ->
  (forall href, In href hrefs -> starts_with link_prefix href = false) ->
  main index_links list_of_set web to_datetime now_stamp repo_root
       format_datetimes
  = ([HttpGet BASE_URL; Print (py "No data to save.")], Ok tt).
Proof.
  intros Hset Hidx Hno. unfold main, get_links. rewrite Hidx.
  rewrite (proj1 (filter_none_nil (starts_with link_prefix) hrefs) Hno).
  simpl map.
  match goal with
  | |- context [list_of_set ?l] =>
      assert (E : list_of_set l = []);
      [destruct (Hset l) as [_ H]; destruct (list_of_set l) as [|x r];
       [reflexivity | exfalso; apply (H x); left; reflexivity]
      |rewrite E]
  end.
  reflexivity.
Qed.

Lemma main_without_links_witness :
  main DiscoverySample.index_without_lists DiscoverySample.list_of_set
       Sample.web Sample.to_datetime
       RoundTripSample.now_stamp RoundTripSample.repo_root
       Sample.format_datetimes
  = ([HttpGet BASE_URL; Print (py "No data to save.")], Ok tt).
Proof.
  apply (@main_without_links
           DiscoverySample.index_without_lists DiscoverySample.list_of_set
           Sample.web Sample.to_datetime
           RoundTripSample.now_stamp RoundTripSample.repo_root
           Sample.format_datetimes
           [py "/wiki/Billboard_Hot_100"; py "#cite_note-1"]).
  - exact nodup_set_listing.
  - reflexivity.
  - intros href [<-|[<-|[]]]; reflexivity.
Defined.

Lemma run_events_app (a b : list event) (fs : files) :
  run_events (a ++ b) fs = run_events b (run_events a fs).
Proof.
  revert fs. induction a as [|ev a IH]; intro fs; [reflexivity|].
  destruct ev; simpl; apply IH.
Qed.

Lemma run_events_pages (urls : list text) (fs : files) :
  run_events (flat_map page_events urls) fs = fs.
Proof. induction urls as [|u urls IH]; [reflexivity | exact IH]. Qed.

(** X10. When the index page is fetched and every page it lists gives a
    frame, with one row at least among them, [main] fetches the index,
    processes the pages in the order of the listing, then creates the
    folder and writes, under the name of the month, the CSV text of the
    concatenation of the frames: this is the content of the file once
    [main] has returned. *)
Theorem main_saves_the_concatenation
        (index_links : text -> option (list text))
        (list_of_set : list text -> list text)
        (web : text -> response)
        (to_datetime : list cell -> list (option Timestamp))
        (now_stamp repo_root : text)
        (format_datetimes : list (option Timestamp) -> list text)
        (hrefs : list text) (frames : list (list NormalizedEntry))
        (fs : files) :
  index_links BASE_URL = Some hrefs ->
  Forall2 (page_frame web to_datetime)
          (list_of_set (map (fun href => site ++ href)
                            (filter (starts_with link_prefix) hrefs)))
          frames ->
  concat frames <> [] ->
  let run := main index_links list_of_set web to_datetime now_stamp repo_root
                  format_datetimes in
  run = ([HttpGet BASE_URL]
         ++ flat_map page_events
              (list_of_set (map (fun href => site ++ href)
                                (filter (starts_with link_prefix) hrefs)))
         ++ [MakeDirs (path_join repo_root (py "data"));
             WriteFile (default_path now_stamp repo_root)
                       (to_csv format_datetimes (concat frames));
             Print (py "Data saved to " ++ default_path now_stamp repo_root)],
         Ok tt) /\
  run_events (fst run) fs (default_path now_stamp repo_root)
  = Some (to_csv format_datetimes (concat frames)).
Proof.
  intros Hidx Hpages Hne. cbv zeta.
  set (links := list_of_set (map (fun href => site ++ href)
                                 (filter (starts_with link_prefix) hrefs))) in *.
  assert (G : get_links index_links list_of_set BASE_URL
              = ([HttpGet BASE_URL], Ok links)).
  { unfold get_links. rewrite Hidx. reflexivity. }
  assert (S : scrape_data web to_datetime (Some links)
              = (flat_map page_events links, Ok (Dataset (concat frames)))).
  { simpl. rewrite (scrape_all_trace_ok Hpages). simpl.
    rewrite app_nil_r. destruct frames; [contradiction Hne|]; reflexivity. }
  assert (E : main index_links list_of_set web to_datetime now_stamp repo_root
                   format_datetimes
              = ([HttpGet BASE_URL]
                 ++ flat_map page_events links
                 ++ [MakeDirs (path_join repo_root (py "data"));
                     WriteFile (default_path now_stamp repo_root)
                               (to_csv format_datetimes (concat frames));
                     Print (py "Data saved to "
                            ++ default_path now_stamp repo_root)],
                 Ok tt)).
  { unfold main. rewrite G. cbn [bind]. rewrite S. cbn [bind].
    rewrite save_to_csv_events.
    destruct (concat frames) as [|e es] eqn:C;
      [exfalso; apply Hne; reflexivity|].
    reflexivity. }
  split; [exact E|]. rewrite E. cbn [fst].
  rewrite run_events_app. cbn [run_events].
  rewrite run_events_app, run_events_pages. cbn [run_events].
  apply write_then_read.
Qed.

Lemma main_saves_the_concatenation_witness :
  exists f2024 f1999,
    scrape_table Sample.to_datetime 2024 Sample.page_2024 = Ok f2024 /\
    scrape_table Sample.to_datetime 1999 Sample.page_1999 = Ok f1999 /\
    run_events
      (fst (main DiscoverySample.index_links DiscoverySample.list_of_set
                 Sample.web Sample.to_datetime
                 RoundTripSample.now_stamp RoundTripSample.repo_root
                 Sample.format_datetimes))
      no_files
      (default_path RoundTripSample.now_stamp RoundTripSample.repo_root)
    = Some (to_csv Sample.format_datetimes (concat [f2024; f1999])).
Proof.
  destruct (scrape_table Sample.to_datetime 2024 Sample.page_2024)
    as [f2024|e] eqn:E1; [|vm_compute in E1; discriminate].
  destruct (scrape_table Sample.to_datetime 1999 Sample.page_1999)
    as [f1999|e] eqn:E2; [|vm_compute in E2; discriminate].
  exists f2024, f1999. split; [reflexivity|]. split; [reflexivity|].
  apply (@main_saves_the_concatenation
           DiscoverySample.index_links DiscoverySample.list_of_set
           Sample.web Sample.to_datetime
           RoundTripSample.now_stamp RoundTripSample.repo_root
           Sample.format_datetimes DiscoverySample.hrefs [f2024; f1999]
           no_files).
  - reflexivity.
  - replace (DiscoverySample.list_of_set
               (map (fun href => site ++ href)
                    (filter (starts_with link_prefix) DiscoverySample.hrefs)))
      with [Sample.url_2024; Sample.url_1999] by (vm_compute; reflexivity).
    constructor; [|constructor; [|constructor]].
    + exists 2024%Z, Sample.page_2024.
      split; [vm_compute; reflexivity|].
      split; [vm_compute; reflexivity | exact E1].
    + exists 1999%Z, Sample.page_1999.
      split; [vm_compute; reflexivity|].
      split; [vm_compute; reflexivity | exact E2].
  - vm_compute in E1. inversion E1. discriminate.
Defined.

(** ** The name of the file *)

Lemma default_path_injective (root s1 s2 : text) :
  default_path s1 root = default_path s2 root -> s1 = s2.
Proof.
  unfold default_path.
  set (dir := path_join root (py "data")).
  unfold path_join. simpl.
  destruct (rev dir) as [|c l]; simpl.
  - intro H. inversion H. apply app_inv_tail in H1. exact H1.
  - assert (J : forall X : text,
               X ++ py "billboard_data_" ++ s1 ++ py ".csv"
               = X ++ py "billboard_data_" ++ s2 ++ py ".csv" -> s1 = s2).
    { intros X H. apply app_inv_head in H. apply app_inv_head in H.
      apply app_inv_tail in H. exact H. }
    destruct (Ascii.eqb c "/"%char) eqn:E.
    + apply Ascii.eqb_eq in E. subst c. intro H. apply (J dir). exact H.
    + assert (N : c <> "/"%char) by (apply Ascii.eqb_neq; exact E).
      intro H.
      assert (H' : dir ++ "/"%char :: py "billboard_data_" ++ s1 ++ py ".csv"
                   = dir ++ "/"%char :: py "billboard_data_" ++ s2 ++ py ".csv").
      { destruct c as [[] [] [] [] [] [] [] []]; try exact H;
          contradiction N; reflexivity. }
      apply app_inv_head in H'. inversion H' as [H1].
      apply app_inv_tail in H1. exact H1.
Qed.

(** X11. The file written by default is named after the month alone. Two
    Datasets saved in the same month go to the same file, which holds the
    second one only; saved in different months they go to two files, and
    both are kept. *)
Theorem default_file_by_month
        (repo_root : text)
        (format_datetimes : list (option Timestamp) -> list text)
        (es1 es2 : list NormalizedEntry) (fs : files) :
  es1 <> [] -> es2 <> [] ->
  (forall stamp,
      run_events
        (fst (bind (save_to_csv stamp repo_root format_datetimes
                                (Dataset es1) None)
                   (fun _ => save_to_csv stamp repo_root format_datetimes
                                         (Dataset es2) None)))
        fs (default_path stamp repo_root)
      = Some (to_csv format_datetimes es2)) /\
  (forall stamp1 stamp2,
      stamp1 <> stamp2 ->
      let after :=
        run_events
          (fst (bind (save_to_csv stamp1 repo_root format_datetimes
                                  (Dataset es1) None)
                     (fun _ => save_to_csv stamp2 repo_root format_datetimes
                                           (Dataset es2) None)))
          fs in
      after (default_path stamp1 repo_root)
      = Some (to_csv format_datetimes es1) /\
      after (default_path stamp2 repo_root)
      = Some (to_csv format_datetimes es2)).
Proof.
  intros H1 H2.
  assert (E : forall es, es <> [] -> df_empty (Dataset es) = false).
  { intros [|e es] H; [contradiction H|]; reflexivity. }
  split.
  - intro stamp. rewrite bind_fst, !save_to_csv_events.
    rewrite (E es1 H1), (E es2 H2). cbn [fst snd entries].
    rewrite run_events_app. cbn [run_events]. apply write_then_read.
  - intros stamp1 stamp2 Hne. cbv zeta.
    rewrite bind_fst, !save_to_csv_events.
    rewrite (E es1 H1), (E es2 H2). cbn [fst snd entries].
    rewrite run_events_app. cbn [run_events]. split.
    + unfold write_file at 1.
      destruct (text_eqb (default_path stamp1 repo_root)
                         (default_path stamp2 repo_root)) eqn:T.
      * apply text_eqb_eq in T. apply default_path_injective in T.
        contradiction.
      * apply write_then_read.
    + apply write_then_read.
Qed.

Lemma default_file_by_month_witness :
  run_events
    (fst (bind (save_to_csv (py "2026_11") RoundTripSample.repo_root
                            Sample.format_datetimes
                            (Dataset [RoundTripSample.entry_na]) None)
               (fun _ => save_to_csv (py "2026_11") RoundTripSample.repo_root
                                     Sample.format_datetimes
                                     (Dataset RoundTripSample.dataset_2024)
                                     None)))
    no_files (default_path (py "2026_11") RoundTripSample.repo_root)
  = Some (to_csv Sample.format_datetimes RoundTripSample.dataset_2024).
Proof.
  apply (proj1 (@default_file_by_month
                  RoundTripSample.repo_root Sample.format_datetimes
                  [RoundTripSample.entry_na] RoundTripSample.dataset_2024
                  no_files ltac:(discriminate) ltac:(discriminate))).
Defined.

(** * Further properties of the file and of its reader *)

Lemma csv_rows_without_cr (es : list NormalizedEntry) (eds pds : list text) :
  Forall (fun e => has_carriage_return (cell_field (Single_Name e)) = false /\
                   has_carriage_return (cell_field (Artists e)) = false /\
                   has_carriage_return (cell_field (Ref e)) = false) es ->
  Forall (fun f => has_carriage_return f = false) eds ->
  Forall (fun f => has_carriage_return f = false) pds ->
  forall i, Forall readable_record (csv_rows i es eds pds).
Proof.
  intros Hes He Hp. induction Hes as [|e es [H1 [H2 H3]] _ IH]; intro i;
    simpl; constructor; [|apply IH].
  split; [simpl; lia|].
  repeat constructor;
    auto using nth_no_cr, year_field_no_cr;
    apply str_of_int_field.
Qed.

(** X12. The file [save_to_csv] writes is read back by the tokenizer of
    [pd.read_csv] as the line of the eight column names followed by one
    record of eight fields for each entry, in the order of the Dataset;
    the title, the artists and the reference of an entry each fill one
    field, as written, also when they hold commas, quotes or line breaks.
    Only a carriage return in a text is excluded. *)
Theorem written_file_records
        (format_datetimes : list (option Timestamp) -> list text)
        (es : list NormalizedEntry) :
  Forall (fun e => has_carriage_return (cell_field (Single_Name e)) = false /\
                   has_carriage_return (cell_field (Artists e)) = false /\
                   has_carriage_return (cell_field (Ref e)) = false) es ->
  Forall (fun f => has_carriage_return f = false)
         (format_datetimes (map Top_Ten_Entry_Date es)) ->
  Forall (fun f => has_carriage_return f = false)
         (format_datetimes (map Peak_Date es)) ->
  exists rs,
    tokenize (to_csv format_datetimes es) = Ok (column_names :: rs) /\
    length rs = length es /\
    Forall (fun r => length r = 8%nat) rs /\
    map (fun r => nth 1 r []) rs = map (fun e => cell_field (Single_Name e)) es /\
    map (fun r => nth 2 r []) rs = map (fun e => cell_field (Artists e)) es /\
    map (fun r => nth 6 r []) rs = map (fun e => cell_field (Ref e)) es.
Proof.
  intros Hes He Hp.
  set (eds := format_datetimes (map Top_Ten_Entry_Date es)) in *.
  set (pds := format_datetimes (map Peak_Date es)) in *.
  destruct (csv_rows_columns es eds pds 0)
    as [_ [H1 [H2 [_ [_ [_ [H6 [_ H8]]]]]]]].
  pose proof (csv_rows_without_cr Hes He Hp 0) as R.
  exists (csv_rows 0 es eds pds). split; [|split; [|split; [|split; [|split]]]].
  - unfold to_csv. apply tokenize_rendered.
    constructor; [apply header_readable | exact R].
  - apply (f_equal (@length text)) in H1. rewrite !length_map in H1. exact H1.
  - exact H8.
  - exact H1.
  - exact H2.
  - exact H6.
Qed.

Lemma written_file_records_witness :
  exists rs,
    tokenize (to_csv Sample.format_datetimes [RoundTripSample.entry_na])
    = Ok (column_names :: rs) /\
    length rs = 1%nat.
Proof.
  destruct (@written_file_records Sample.format_datetimes
              [RoundTripSample.entry_na])
    as [rs [H [L _]]].
  - repeat constructor.
  - vm_compute. repeat constructor.
  - vm_compute. repeat constructor.
  - exists rs. split; [exact H | exact L].
Defined.

(** X13. [load_data] raises [KeyError] on a file that is read as a table
    but lacks one of the five columns it converts. *)
Theorem load_data_missing_column
        (read_datetimes : list cell -> list (option Timestamp))
        (is_float : text -> bool)
        (fs : files) (path content : text)
        (raw : list (text * list cell)) (name : text) :
  fs path = Some content ->
  read_csv content = Ok raw ->
  In name [py "Top Ten Entry Date"; py "Peak Date"; py "Weeks in Top Ten";
           py "Peak"; py "Year"] ->
  get_col name raw = None ->
  load_data read_datetimes is_float fs path = Err KeyError.
Proof.
  intros Hfs Hcsv Hin Hnone. unfold load_data, column.
  rewrite Hfs, Hcsv. cbn [rbind].
  repeat match goal with
         | |- context [get_col ?n raw] =>
             let E := fresh "E" in
             destruct (get_col n raw) eqn:E; cbn [rbind]; [|reflexivity]
         end.
  exfalso.
  destruct Hin as [<- | [<- | [<- | [<- | [<- | []]]]]]; congruence.
Qed.

Lemma load_data_missing_column_witness :
  load_data Sample.read_datetimes Sample.is_float
            (write_file (py "songs.csv")
                        (py "Single Name,Peak" ++ newline :: py "Song A,3"
                            ++ [newline])
                        no_files)
            (py "songs.csv")
  = Err KeyError.
Proof.
  destruct (read_csv (py "Single Name,Peak" ++ newline :: py "Song A,3"
                         ++ [newline]))
    as [raw|e] eqn:E; [|vm_compute in E; discriminate].
  apply (@load_data_missing_column
           Sample.read_datetimes Sample.is_float _ (py "songs.csv") _ raw
           (py "Year") (write_then_read _ _ _) E).
  - simpl. tauto.
  - vm_compute in E. inversion E. reflexivity.
Defined.





(** * Properties of the analyses *)

(** ** The bins of the peak *)

(** X17. Each label of [Peak_bin] names the peaks it holds: [1] is the
    peak 1, [2-3] the peaks 2 and 3, [4-5] the peaks 4 and 5, [6-10] the
    peaks 6 to 10; a peak of 0 or less, or above 10, has no bin. *)
Theorem peak_bin_labels (p : Z) :
  (Peak_bin p = Some (py "1") <-> p = 1%Z) /\
  (Peak_bin p = Some (py "2-3") <-> p = 2%Z \/ p = 3%Z) /\
  (Peak_bin p = Some (py "4-5") <-> p = 4%Z \/ p = 5%Z) /\
  (Peak_bin p = Some (py "6-10") <-> (6 <= p <= 10)%Z) /\
  (Peak_bin p = None <-> (p <= 0)%Z \/ (10 < p)%Z).
Proof.
  unfold Peak_bin, cut.
  destruct (Z.ltb_spec 0 p); destruct (Z.leb_spec p 1);
    destruct (Z.ltb_spec 1 p); destruct (Z.leb_spec p 3);
    destruct (Z.ltb_spec 3 p); destruct (Z.leb_spec p 5);
    destruct (Z.ltb_spec 5 p); destruct (Z.leb_spec p 10);
    cbn [andb]; try lia;
    repeat split; intros; try lia; try reflexivity; try discriminate;
    match goal with
    | E : Some _ = Some _ |- _ => vm_compute in E; discriminate E
    end.
Qed.

(** ** The eras *)

(** X18. [era_map] gives every year of a Dataset one of three eras: the
    years up to 1999 are [Pre-digital], those from 2000 to 2014 are
    [Digital], those from 2015 on are [Streaming], and so is a row
    without year, since every comparison of [NaN] is false. *)
Theorem era_of_year (float_le : float_expr -> Z -> bool) (y : option Z) :
  exists era,
    era_map float_le (year_value y) = Ok era /\
    (era = py "Pre-digital" <-> exists z, y = Some z /\ (z <= 1999)%Z) /\
    (era = py "Digital" <-> exists z, y = Some z /\ (2000 <= z <= 2014)%Z) /\
    (era = py "Streaming" <-> y = None \/ exists z, y = Some z /\ (2015 <= z)%Z).
Proof.
  destruct y as [z|]; unfold era_map, year_value, year_le; cbn [rbind];
    [destruct (Z.leb_spec z 1999) as [L|L];
     [|destruct (Z.leb_spec z 2014) as [M|M]]|];
    eexists; (split; [reflexivity|]); (split; [|split]); (split; intro H');
    try (vm_compute in H'; discriminate H');
    try reflexivity;
    try (exists z; split; [reflexivity | lia]);
    try (right; exists z; split; [reflexivity | lia]);
    try (left; reflexivity);
    repeat match goal with
           | H : exists _, _ |- _ =>
               let E := fresh "E" in
               destruct H as [? [E ?]]; inversion E; subst
           | H : _ \/ _ |- _ =>
               let E := fresh "E" in
               destruct H as [E|H]; [discriminate E|]
           end;
    exfalso; lia.
Qed.

(** ** The names of a credit *)

Lemma lstrip_idempotent (s : text) : lstrip (lstrip s) = lstrip s.
Proof.
  induction s as [|c s IH]; [reflexivity|]. simpl.
  destruct (is_space c) eqn:E; [exact IH|]. simpl. rewrite E. reflexivity.
Qed.

Lemma lstrip_head (s t : text) (c : ascii) :
  lstrip s = c :: t -> is_space c = false.
Proof.
  induction s as [|x s IH]; simpl; [discriminate|].
  destruct (is_space x) eqn:E; [exact IH|].
  intro H. inversion H; subst. exact E.
Qed.

Lemma lstrip_app_last (x : text) (c : ascii) :
  is_space c = false -> lstrip (x ++ [c]) = lstrip x ++ [c].
Proof.
  intro E. induction x as [|a x IH]; simpl.
  - rewrite E. reflexivity.
  - destruct (is_space a); [exact IH | reflexivity].
Qed.

Lemma lstrip_in (s : text) (x : ascii) : In x (lstrip s) -> In x s.
Proof.
  induction s as [|c s IH]; simpl; [tauto|].
  destruct (is_space c); [intro H; right; apply IH; exact H | tauto].
Qed.

Lemma strip_in (s : text) (x : ascii) : In x (strip s) -> In x s.
Proof.
  unfold strip, rstrip. intro H.
  apply in_rev in H. apply lstrip_in in H. apply in_rev in H.
  apply lstrip_in in H. exact H.
Qed.

Lemma strip_idempotent (s : text) : strip (strip s) = strip s.
Proof.
  unfold strip, rstrip.
  assert (L : lstrip (rev (lstrip (rev (lstrip s))))
              = rev (lstrip (rev (lstrip s)))).
  { destruct (lstrip s) as [|c t] eqn:E; [reflexivity|].
    apply lstrip_head in E. cbn [rev].
    rewrite (@lstrip_app_last _ _ E), rev_app_distr. simpl. rewrite E.
    reflexivity. }
  rewrite L, rev_involutive, lstrip_idempotent. reflexivity.
Qed.

Lemma split_pieces_without_sep (sep : ascii) (s p : text) :
  In p (split sep s) -> ~ In sep p.
Proof.
  revert p. induction s as [|c s IH]; intro p; simpl.
  - intros [<-|[]]. intros [].
  - destruct (char_is sep c) eqn:E.
    + intros [<-|H]; [intros [] | apply IH; exact H].
    + apply char_is_neq in E.
      destruct (split sep s) as [|q qs] eqn:S.
      * intros [<-|[]]. intros [N|[]]. congruence.
      * intros [<-|H].
        -- intros [N|N]; [congruence|].
           apply (IH q (or_introl eq_refl)). exact N.
        -- apply IH. right. exact H.
Qed.

Lemma split_piece_in (sep : ascii) (s p : text) (x : ascii) :
  In p (split sep s) -> In x p -> In x s.
Proof.
  intros H Hx. destruct (split_piece sep s p H) as [a [b ->]].
  apply in_or_app. right. apply in_or_app. left. exact Hx.
Qed.

Lemma replace_ampersand (s : text) :
  ~ In "&"%char (replace (py "&") (py ",") s).
Proof.
  unfold replace. change (py "&") with ["&"%char].
  change (py ",") with [","%char].
  induction s as [|c s IH]; [intros []|].
  cbn [replace_from strip_prefix length Nat.sub app].
  destruct (char_is "&"%char c) eqn:E.
  - intros [N|N]; [discriminate | exact (IH N)].
  - apply char_is_neq in E. intros [N|N]; [congruence | exact (IH N)].
Qed.

(** X19. Every name [collaboration_network] draws from a credit is a
    non-empty text without comma and without ampersand, with no white
    space at either end. *)
Theorem artist_names_clean (artists name : text) :
  In name (artist_names artists) ->
  name <> [] /\ ~ In ","%char name /\ ~ In "&"%char name /\
  strip name = name.
Proof.
  unfold artist_names. intro H.
  apply in_map_iff in H. destruct H as [a [<- Ha]].
  apply filter_In in Ha. destruct Ha as [Ha Ht].
  split; [|split; [|split]].
  - intro N. rewrite N in Ht. discriminate.
  - intro N. apply strip_in in N.
    exact (@split_pieces_without_sep _ _ _ Ha N).
  - intro N. apply strip_in in N.
    apply (@split_piece_in _ _ _ _ Ha) in N.
    exact (@replace_ampersand _ N).
  - apply strip_idempotent.
Qed.

Lemma artist_names_clean_witness :
  artist_names (py "Drake feat. Rihanna & Future , Jay-Z,")
  = [py "Drake"; py "Rihanna"; py "Future"; py "Jay-Z"] /\
  strip (py "Rihanna") = py "Rihanna".
Proof.
  split; [vm_compute; reflexivity|].
  apply (@artist_names_clean (py "Drake feat. Rihanna & Future , Jay-Z,")
                             (py "Rihanna")).
  vm_compute. right. left. reflexivity.
Defined.

(** ** The edges and the nodes *)

Lemma credit_edges_length_from (names : list text) :
  forall m k,
    (k + m = length names)%nat ->
    (2 * length (flat_map
                   (fun i => map (fun j => (nth i names [], nth j names []))
                                 (seq (S i) (length names - S i)))
                   (seq k m))
     = m * (m - 1))%nat.
Proof.
  induction m as [|m IH]; intros k Hk; [reflexivity|].
  cbn [seq flat_map]. rewrite length_app, length_map, length_seq.
  specialize (IH (S k) ltac:(lia)).
  replace (length names - S k)%nat with m by lia.
  destruct m as [|m']; [simpl in *; lia|].
  replace (S (S m') - 1)%nat with (S m') by lia.
  replace (S m' - 1)%nat with m' in IH by lia.
  lia.
Qed.

Lemma credit_edges_in (names : list text) (a b : text) :
  In (a, b) (credit_edges names) <->
  exists i j, (i < j < length names)%nat /\
              nth i names [] = a /\ nth j names [] = b.
Proof.
  unfold credit_edges. rewrite in_flat_map. split.
  - intros [i [Hi H]]. apply in_map_iff in H. destruct H as [j [E Hj]].
    apply in_seq in Hi. apply in_seq in Hj. inversion E; subst.
    exists i, j. repeat split; lia.
  - intros [i [j [[Hij Hj] [<- <-]]]]. exists i. split.
    + apply in_seq. lia.
    + apply in_map_iff. exists j. split; [reflexivity|].
      apply in_seq. lia.
Qed.

(** X20. For a credit of n names the two loops call [add_edge] once for
    each pair of positions i < j, with the names at these positions in
    this order: n(n-1)/2 calls, so none for a credit of one name. *)
Theorem credit_edges_are_the_pairs (names : list text) :
  (forall a b,
      In (a, b) (credit_edges names) <->
      exists i j, (i < j < length names)%nat /\
                  nth i names [] = a /\ nth j names [] = b) /\
  (2 * length (credit_edges names)
   = length names * (length names - 1))%nat.
Proof.
  split.
  - intros a b. apply credit_edges_in.
  - unfold credit_edges. apply credit_edges_length_from. reflexivity.
Qed.

(** X21. An artist is a node of the collaboration graph exactly when one
    credit of two names or more holds the name: an artist with solo
    credits only is not in the graph. *)
Theorem nodes_are_collaborators (credits : list cell) (a : text) :
  In a (collaboration_nodes credits) <->
  exists s, In (Str s) credits /\ In a (artist_names s) /\
            (2 <= length (artist_names s))%nat.
Proof.
  unfold collaboration_nodes, collaboration_edges.
  rewrite in_flat_map. split.
  - intros [[x y] [Hxy Ha]]. apply in_flat_map in Hxy.
    destruct Hxy as [c [Hc Hxy]]. destruct c as [s| |]; try contradiction.
    apply credit_edges_in in Hxy.
    destruct Hxy as [i [j [[Hij Hj] [Hx Hy]]]].
    exists s. split; [exact Hc|]. split; [|lia].
    simpl in Ha. destruct Ha as [<- | [<- | []]]; subst; apply nth_In; lia.
  - intros [s [Hc [Ha Hn]]].
    destruct (In_nth _ _ [] Ha) as [k [Hk Hnth]].
    destruct k as [|k].
    + exists (nth 0 (artist_names s) [], nth 1 (artist_names s) []). split.
      * apply in_flat_map. exists (Str s). split; [exact Hc|].
        apply credit_edges_in.
        exists 0%nat, 1%nat. repeat split; lia.
      * left. exact Hnth.
    + exists (nth 0 (artist_names s) [], nth (S k) (artist_names s) []). split.
      * apply in_flat_map. exists (Str s). split; [exact Hc|].
        apply credit_edges_in.
        exists 0%nat, (S k). repeat split; [lia | exact Hk].
      * right. left. exact Hnth.
Qed.

(** * Further properties of the cleaning *)

(** ** Rows and entries *)

(** X22. The frame of a page has one entry for each row of the table that
    is not a marker, in the order of the page, and [Artist(s)] and [Ref]
    are the cells of the page as they are: no cleaning is applied to
    them, a footnote mark stays in the text. *)
Theorem one_entry_per_data_row
        (to_datetime : list cell -> list (option Timestamp))
        (year : Z) (t : RawTable) (out : list NormalizedEntry) :
  scrape_table to_datetime year t = Ok out ->
  length out = length (data_rows t) /\
  map Artists out = map (fun r => nth 2 r NaN) (data_rows t) /\
  map Ref out = map (fun r => nth 6 r NaN) (data_rows t).
Proof.
  intro H. apply scrape_table_ok in H.
  destruct H as [ps [weeks [peaks [_ [Hfst [_ [_ [_ Hout]]]]]]]].
  subst out. rewrite <- Hfst.
  match goal with
  | |- context [assemble ?i ?rs ?eds ?pds ?ws ?ks] =>
      destruct (assemble_rows rs i eds pds ws ks) as [_ [_ [HA HR]]];
      rewrite HA, HR, (assemble_length rs i eds pds ws ks)
  end.
  rewrite !length_map, !map_map. repeat split.
Qed.

Lemma one_entry_per_data_row_witness :
  exists out,
    scrape_table Sample.to_datetime 2024 Sample.page_2024 = Ok out /\
    length out = length (data_rows Sample.page_2024).
Proof.
  destruct (scrape_table Sample.to_datetime 2024 Sample.page_2024)
    as [out|e] eqn:E; [|vm_compute in E; discriminate].
  exists out. split; [reflexivity|].
  apply (@one_entry_per_data_row Sample.to_datetime 2024 Sample.page_2024 out E).
Defined.

(** ** The dates *)

Lemma until_char_first (a : ascii) (d rest : text) :
  ~ In a d -> until_char a (d ++ a :: rest) = Some (d, rest).
Proof.
  induction d as [|c d IH]; intro H; cbn [app until_char].
  - rewrite char_is_refl. reflexivity.
  - destruct (char_is a c) eqn:E.
    + apply char_is_eq in E. subst. exfalso. apply H. left. reflexivity.
    + rewrite IH; [reflexivity|]. intro N. apply H. right. exact N.
Qed.

Lemma until_char_none (a : ascii) (s : text) :
  ~ In a s -> until_char a s = None.
Proof.
  induction s as [|c s IH]; intro H; cbn [until_char]; [reflexivity|].
  destruct (char_is a c) eqn:E.
  - apply char_is_eq in E. subst. exfalso. apply H. left. reflexivity.
  - rewrite IH; [reflexivity|]. intro N. apply H. right. exact N.
Qed.

Lemma after_last_none (a : ascii) (s : text) :
  ~ In a s -> after_last a s = None.
Proof.
  induction s as [|c s IH]; intro H; cbn [after_last]; [reflexivity|].
  rewrite IH by (intro N; apply H; right; exact N).
  destruct (char_is a c) eqn:E; [|reflexivity].
  apply char_is_eq in E. subst. exfalso. apply H. left. reflexivity.
Qed.

Lemma after_last_last (a : ascii) (note rest : text) :
  ~ In a rest -> after_last a (note ++ a :: rest) = Some rest.
Proof.
  intro H. induction note as [|c note IH]; cbn [app after_last].
  - rewrite (@after_last_none _ _ H), char_is_refl. reflexivity.
  - rewrite IH. reflexivity.
Qed.

Lemma remove_parens_one_line (s : text) :
  ~ In newline s -> remove_parens s = remove_parens_line s.
Proof.
  intro H. unfold remove_parens. rewrite (@split_no_sep _ _ H). reflexivity.
Qed.

Lemma join_split (sep : ascii) (s : text) : join [sep] (split sep s) = s.
Proof.
  induction s as [|c s IH]; [reflexivity|]. cbn [split].
  destruct (char_is sep c) eqn:E.
  - apply char_is_eq in E. subst c.
    destruct (split sep s) as [|q qs] eqn:S; [destruct s; discriminate|].
    change (join [sep] ([] :: q :: qs)) with (sep :: join [sep] (q :: qs)).
    rewrite IH. reflexivity.
  - destruct (split sep s) as [|q qs] eqn:S.
    + destruct s as [|x s']; [discriminate S|].
      cbn [split] in S. destruct (char_is sep x); [discriminate S|].
      destruct (split sep s'); discriminate S.
    + destruct qs as [|q' qs'].
      * cbn [join] in *. rewrite IH. reflexivity.
      * change (join [sep] ((c :: q) :: q' :: qs'))
          with (c :: join [sep] (q :: q' :: qs')).
        rewrite IH. reflexivity.
Qed.

Lemma remove_parens_without (s : text) :
  ~ In "("%char s -> remove_parens s = s.
Proof.
  intro H. unfold remove_parens.
  rewrite (map_ext_in remove_parens_line (fun l => l)).
  - rewrite map_id. apply join_split.
  - intros l Hl. unfold remove_parens_line.
    rewrite until_char_none; [reflexivity|].
    intro N. apply H. exact (@split_piece_in _ _ _ _ Hl N).
Qed.

Lemma remove_citations_without (s : text) :
  ~ In "["%char s -> remove_citations s = s.
Proof.
  unfold remove_citations.
  induction s as [|c s IH]; intro H; [reflexivity|].
  cbn [remove_citations_from citation_at].
  destruct (char_is "["%char c) eqn:E.
  - apply char_is_eq in E. subst. exfalso. apply H. left. reflexivity.
  - rewrite IH; [reflexivity|]. intro N. apply H. right. exact N.
Qed.

(** X23. The removal of the parentheses is greedy: on a cell of one line
    everything from the first opening parenthesis to the last closing one
    goes, the text between two parenthesised notes included. *)
Theorem clean_date_drops_first_to_last_parenthesis (d note rest : text) :
  ~ In newline d -> ~ In newline note -> ~ In newline rest ->
  ~ In "("%char d -> ~ In ")"%char rest ->
  clean_date (Str (d ++ "("%char :: note ++ ")"%char :: rest))
  = Str (strip (remove_citations (d ++ rest))).
Proof.
  intros Nd Nn Nr Hd Hr. unfold clean_date. cbn [str_map].
  rewrite remove_parens_one_line.
  - unfold remove_parens_line.
    rewrite (@until_char_first _ _ _ Hd), (@after_last_last _ _ _ Hr). reflexivity.
  - intro N. apply in_app_or in N. destruct N as [N|[N|N]]; [tauto|discriminate|].
    apply in_app_or in N. destruct N as [N|[N|N]]; [tauto|discriminate|tauto].
Qed.

Lemma clean_date_drops_first_to_last_parenthesis_witness :
  clean_date (Str (py "January 6 " ++ "("%char :: py "tie) and (again"
                      ++ ")"%char :: py "[3] "))
  = Str (py "January 6").
Proof.
  assert (Q : forall a s, existsb (char_is a) s = false -> ~ In a s).
  { intros a s H N. rewrite existsb_false in H. specialize (H _ N).
    rewrite char_is_refl in H. discriminate. }
  rewrite (@clean_date_drops_first_to_last_parenthesis
             (py "January 6 ") (py "tie) and (again") (py "[3] "));
    try (apply Q; reflexivity).
  vm_compute. reflexivity.
Defined.

(** X24. A cell without opening parenthesis and without opening bracket
    is only stripped of the white space at its ends. *)
Theorem clean_date_plain_text (s : text) :
  ~ In "("%char s -> ~ In "["%char s ->
  clean_date (Str s) = Str (strip s).
Proof.
  intros Hp Hb. unfold clean_date. cbn [str_map].
  rewrite (@remove_parens_without _ Hp), (@remove_citations_without _ Hb).
  reflexivity.
Qed.

Lemma clean_date_plain_text_witness :
  clean_date (Str (py " December 16 ")) = Str (py "December 16").
Proof.
  assert (Q : forall a s, existsb (char_is a) s = false -> ~ In a s).
  { intros a s H N. rewrite existsb_false in H. specialize (H _ N).
    rewrite char_is_refl in H. discriminate. }
  rewrite (@clean_date_plain_text (py " December 16 "));
    try (apply Q; reflexivity).
  vm_compute. reflexivity.
Defined.

(** ** A file name given by the caller *)




